(** * NetworkPulse: the probe-and-aggregate cycle of [pings.py]

    A shallow embedding of [ping_ips], [send_email] and [generate_report]
    of [attached_assets/pings.py], and the properties of the cycle.

    Modelling conventions:
    - Python floats are binary64 floats ([PrimFloat.float]); [sum], [/] and
      the format [.4f] round as the interpreter does.  CPython sums floats
      with plain additions before version 3.12 and with Neumaier's
      compensation from 3.12 on; the environment says which.
    - [ping3.ping] and [datetime.now] are calls into the environment.  One
      cycle calls [ping] at most once for each pair (position of the host in
      the list, iteration of the inner loop), so the network of a cycle is a
      function of that pair (and of the address passed); the clock is the
      sequence of its successive readings.
    - Mutable state (the two locals that the loops of [ping_ips] mutate, the
      files, the log, the messages accepted by the SMTP server) is threaded
      through a small state-and-exception monad.
    - Paths are written with "/".  Of the file system the state holds the
      regular files and their content; directories are not part of it:
      [os.makedirs] fails on the empty path and is otherwise taken to
      succeed, as [open] is.  The records of the log, which line 29 sends
      to the file [ping_script.log], are kept in a field of their own.
    - The values of the configuration are strings of one line, which
      [EmailMessage] takes as header values as they are; [content] is the
      text handed to [set_content]. *)

From Stdlib Require Import List String Ascii ZArith QArith Lia Bool Arith PeanoNat.
From Stdlib Require Import PrimFloat FloatOps SpecFloat Uint63.
Import ListNotations.

Set Warnings "-inexact-float".

Local Open Scope string_scope.
Local Open Scope nat_scope.

(** ** Values and data *)

(** What [ping(ip)] can return: [None] (timed out), [False] (the library's
    way to signal an error, such as an unknown host), or a delay in
    seconds. *)
Inductive PyVal : Type :=
| PNone
| PFalse
| PFloat (x : float).

(** One call of [ping]: it returns a value or raises an [Exception] whose
    [str(e)] is [msg]. *)
Inductive Outcome : Type :=
| Returns (v : PyVal)
| Raises (msg : string).

(** [response_time is not None] *)
Definition is_not_None (v : PyVal) : bool :=
  match v with
  | PNone => false
  | _ => true
  end.

(** The number a value stands for in an addition: [False] is the integer
    0.  ([None] is never added: it is never put in a list.) *)
Definition num (v : PyVal) : float :=
  match v with
  | PFloat x => x
  | _ => 0%float
  end.

(** An entry of [ips]: a dict with the keys "name" and "ip". *)
Record Entry : Type := mkEntry { name : string; ip : string }.

Record Instant : Type := mkInstant {
  year : nat; month : nat; day : nat;
  hour : nat; minute : nat; second : nat
}.

Definition Row : Type := list string.

Inductive Level : Type := INFO | WARNING | ERROR.

Definition LogRecord : Type := (Level * string)%type.

Record Email : Type := mkEmail {
  Subject : string;
  From : string;
  To : string;
  content : string;
  attachment : option (string * list Row)
}.

(** The module-level configuration read from the process environment. *)
Record Config : Type := mkConfig {
  EMAIL_ADDRESS : string;
  REPORT_RECIPIENT_EMAIL : string;
  ERROR_RECIPIENT_EMAIL : string;
  ip_addresses : list Entry
}.

(** The environment of a run. *)
Record Env : Type := mkEnv {
  (** [env_ping i k ip]: what [ping(ip)] does in iteration [k] of the inner
      loop for the host at position [i]. *)
  env_ping : nat -> nat -> string -> Outcome;
  (** [env_clock t]: the reading number [t] of [datetime.now()]. *)
  env_clock : nat -> Instant;
  (** What the SMTP session does with a message: [None] when the server
      takes it, [Some e] when the session raises. *)
  env_smtp : Email -> option string;
  (** Whether [sum] compensates the rounding errors of its additions
      (CPython 3.12 and later) or adds plainly (earlier versions). *)
  env_compensated : bool
}.

(** The file that [logging.basicConfig] names (line 29). *)
Definition LOG_FILE : string := "ping_script.log".

(** ** Formatting *)

Definition digit (n : nat) : ascii := ascii_of_nat (48 + n mod 10).

Definition pad2 (n : nat) : string :=
  String (digit (n / 10)) (String (digit n) EmptyString).

Definition pad4 (n : nat) : string :=
  String (digit (n / 1000)) (String (digit (n / 100)) (pad2 n)).

(** [strftime("%Y-%m-%d %H:%M:%S")] *)
Definition strftime (t : Instant) : string :=
  pad4 (year t) ++ "-" ++ pad2 (month t) ++ "-" ++ pad2 (day t) ++ " " ++
  pad2 (hour t) ++ ":" ++ pad2 (minute t) ++ ":" ++ pad2 (second t).

(** [strftime('%Y%m%d_%H%M%S')] *)
Definition strftime_compact (t : Instant) : string :=
  pad4 (year t) ++ pad2 (month t) ++ pad2 (day t) ++ "_" ++
  pad2 (hour t) ++ pad2 (minute t) ++ pad2 (second t).

(** Decimal digits of an integer [z >= 0], most significant first. *)
Fixpoint digits_fuel (fuel : nat) (z : Z) (acc : string) : string :=
  match fuel with
  | O => acc
  | S fuel' =>
      let acc' := String (digit (Z.to_nat (z mod 10))) acc in
      if (z / 10 =? 0)%Z then acc' else digits_fuel fuel' (z / 10) acc'
  end.

Definition str_Z (z : Z) : string :=
  digits_fuel (S (Z.to_nat (Z.log2 z))) z EmptyString.

(** Rounding to the nearest integer, ties to even. *)
Definition round_half_even (q : Q) : Z :=
  let n := Qnum q in
  let d := Zpos (Qden q) in
  let fl := (n / d)%Z in
  let r2 := (2 * (n mod d))%Z in
  if (r2 <? d)%Z then fl
  else if (d <? r2)%Z then (fl + 1)%Z
  else if Z.even fl then fl else (fl + 1)%Z.

(** A number [q >= 0] in fixed notation with four decimals, after the sign. *)
Definition fixed4 (negative : bool) (q : Q) : string :=
  let scaled := round_half_even (q * 10000) in
  (if negative then "-" else "") ++ str_Z (scaled / 10000) ++ "." ++
  pad4 (Z.to_nat (scaled mod 10000)).

(** The power of two [2 ^ e], for any integer [e]. *)
Definition pow2 (e : Z) : Q :=
  if (0 <=? e)%Z then inject_Z (2 ^ e) else 1 # Z.to_pos (2 ^ (- e)).

(** [f"{x:.4f}"]: the exact value of the float, rounded to four decimals. *)
Definition format_4f (x : float) : string :=
  match Prim2SF x with
  | S754_nan => "nan"
  | S754_infinity s => if s then "-inf" else "inf"
  | S754_zero s => fixed4 s 0
  | S754_finite s m e => fixed4 s (inject_Z (Zpos m) * pow2 e)
  end.

(** [float(n)] for the length of a list. *)
Definition float_of_nat (n : nat) : float :=
  PrimFloat.of_uint63 (Uint63.of_Z (Z.of_nat n)).

(** The paths of [os.path], for paths written with "/". *)
Fixpoint has_slash (p : string) : bool :=
  match p with
  | EmptyString => false
  | String c r => if Ascii.eqb c "/" then true else has_slash r
  end.

(** [os.path.basename]: what follows the last "/". *)
Fixpoint basename (p : string) : string :=
  match p with
  | EmptyString => EmptyString
  | String c r =>
      if has_slash r then basename r
      else if Ascii.eqb c "/" then r else p
  end.

(** The head of [os.path.split]: the path up to its last "/", included. *)
Fixpoint head_of (p : string) : string :=
  match p with
  | EmptyString => EmptyString
  | String c r =>
      if has_slash r then String c (head_of r)
      else if Ascii.eqb c "/" then String c EmptyString else EmptyString
  end.

Fixpoint all_slashes (p : string) : bool :=
  match p with
  | EmptyString => true
  | String c r => if Ascii.eqb c "/" then all_slashes r else false
  end.

(** [p.rstrip("/")] *)
Fixpoint rstrip_slashes (p : string) : string :=
  match p with
  | EmptyString => EmptyString
  | String c r =>
      match rstrip_slashes r with
      | EmptyString => if Ascii.eqb c "/" then EmptyString else String c EmptyString
      | r' => String c r'
      end
  end.

(** [os.path.dirname]: the head, without its trailing slashes unless it is
    made of slashes only. *)
Definition dirname (p : string) : string :=
  let head := head_of p in
  if all_slashes head then head else rstrip_slashes head.

(** ** State and effects *)

Record State : Type := mkState {
  (** locals of [ping_ips] *)
  all_unreachable : bool;
  latencies : list PyVal;
  (** the world *)
  fs : string -> option (list Row);   (* the regular files *)
  log : list LogRecord;               (* the records of [LOG_FILE] *)
  echo : list (nat * nat * string);   (* the calls of [ping], in order *)
  ticks : nat;                        (* clock readings taken so far *)
  reads : list nat;                   (* per reading: calls of [ping] made before it *)
  outbox : list Email                 (* messages the server accepted *)
}.

Definition set_all_unreachable (b : bool) (s : State) : State :=
  mkState b (latencies s) (fs s) (log s) (echo s) (ticks s) (reads s) (outbox s).

Definition set_latencies (l : list PyVal) (s : State) : State :=
  mkState (all_unreachable s) l (fs s) (log s) (echo s) (ticks s) (reads s)
          (outbox s).

Definition set_fs (f : string -> option (list Row)) (s : State) : State :=
  mkState (all_unreachable s) (latencies s) f (log s) (echo s) (ticks s)
          (reads s) (outbox s).

Definition add_log (r : LogRecord) (s : State) : State :=
  mkState (all_unreachable s) (latencies s) (fs s) (log s ++ [r]) (echo s)
          (ticks s) (reads s) (outbox s).

Definition add_echo (c : nat * nat * string) (s : State) : State :=
  mkState (all_unreachable s) (latencies s) (fs s) (log s) (echo s ++ [c])
          (ticks s) (reads s) (outbox s).

Definition tick (s : State) : State :=
  mkState (all_unreachable s) (latencies s) (fs s) (log s) (echo s)
          (S (ticks s)) (reads s ++ [List.length (echo s)]) (outbox s).

Definition add_outbox (m : Email) (s : State) : State :=
  mkState (all_unreachable s) (latencies s) (fs s) (log s) (echo s)
          (ticks s) (reads s) (outbox s ++ [m]).

(** The state a process starts in: nothing logged, sent or written. *)
Definition initial_state : State :=
  mkState true [] (fun _ => None) [] [] 0 [] [].

Inductive Res (A : Type) : Type :=
| Val (a : A)
| Exn (e : string).

Arguments Val {A} a.
Arguments Exn {A} e.

Definition M (A : Type) : Type := State -> Res A * State.

Definition ret {A : Type} (a : A) : M A := fun s => (Val a, s).

Definition bind {A B : Type} (m : M A) (f : A -> M B) : M B :=
  fun s =>
    match m s with
    | (Val a, s') => f a s'
    | (Exn e, s') => (Exn e, s')
    end.

(** [try: body except Exception as e: handler(e)] *)
Definition try_except (body : M unit) (handler : string -> M unit) : M unit :=
  fun s =>
    match body s with
    | (Val _, s') => (Val tt, s')
    | (Exn e, s') => handler e s'
    end.

Definition modify (f : State -> State) : M unit := fun s => (Val tt, f s).

Definition gets {A : Type} (f : State -> A) : M A := fun s => (Val (f s), s).

Declare Scope m_scope.
Delimit Scope m_scope with M.
Notation "x <- c1 ;; c2" := (bind c1 (fun x => c2))
  (at level 61, c1 at next level, right associativity) : m_scope.
Notation "c1 ;; c2" := (bind c1 (fun _ => c2))
  (at level 61, right associativity) : m_scope.
Local Open Scope m_scope.

Definition logging (lv : Level) (msg : string) : M unit :=
  modify (add_log (lv, msg)).

Definition file_content (s : State) (path : string) : list Row :=
  match fs s path with
  | Some rows => rows
  | None => []
  end.

Definition update (path : string) (rows : list Row)
    (f : string -> option (list Row)) : string -> option (list Row) :=
  fun p => if String.eqb p path then Some rows else f p.

(** [os.makedirs(d, exist_ok=True)]: the empty path names no directory
    ([FileNotFoundError]); any other is created if need be. *)
Definition makedirs (d : string) : M unit :=
  fun s =>
    match d with
    | EmptyString => (Exn "[Errno 2] No such file or directory: ''", s)
    | _ => (Val tt, s)
    end.

(** [open(path, mode='w')]: the file is created or truncated. *)
Definition open_w (path : string) : M unit :=
  modify (fun s => set_fs (update path [] (fs s)) s).

(** [writer.writerow(row)] on the file opened at [path]. *)
Definition writerow (path : string) (row : Row) : M unit :=
  modify (fun s => set_fs (update path (file_content s path ++ [row]) (fs s)) s).

(** [open(path, "rb")] followed by [f.read()]. *)
Definition read_rb (path : string) : M (list Row) :=
  fun s =>
    match fs s path with
    | Some rows => (Val rows, s)
    | None => (Exn ("No such file or directory: " ++ path), s)
    end.

(** ** The program *)

(** [sum], once it holds a float [f]: every further float is added to it,
    with the rounding error of the addition gathered in [c] when the
    interpreter compensates; [False] is added as the integer 0.  At the end
    a compensation that is not zero and is finite is added. *)
Fixpoint sum_floats (compensated : bool) (l : list PyVal) (f c : float)
    : float :=
  match l with
  | [] =>
      if compensated && negb (c =? 0)%float && PrimFloat.is_finite c
      then (f + c)%float else f
  | PFloat x :: rest =>
      if compensated then
        let t := (f + x)%float in
        sum_floats compensated rest t
          (if (abs x <=? abs f)%float
           then (c + ((f - t) + x))%float
           else (c + ((x - t) + f))%float)
      else sum_floats compensated rest (f + x)%float c
  | _ :: rest => sum_floats compensated rest (f + 0)%float c
  end.

(** [sum(latencies)]: the items are added from the left, starting at the
    integer 0, which the first float turns into a float. *)
Fixpoint sum (compensated : bool) (l : list PyVal) : float :=
  match l with
  | [] => 0%float
  | PFloat x :: rest => sum_floats compensated rest (0 + x)%float 0%float
  | _ :: rest => sum compensated rest
  end.

(** [len(latencies)], as the number it is in a division. *)
Definition len (l : list PyVal) : float := float_of_nat (List.length l).

Definition header : Row :=
  ["Name"; "IP Address"; "Average Response Time (s)"; "Time"].

Section Program.

Variable env : Env.
Variable cfg : Config.

(** [ping(ip)], called in iteration [k] for the host at position [i]. *)
Definition ping (i k : nat) (ip : string) : M PyVal :=
  fun s =>
    let s' := add_echo (i, k, ip) s in
    match env_ping env i k ip with
    | Returns v => (Val v, s')
    | Raises e => (Exn e, s')
    end.

(** [datetime.now()] *)
Definition datetime_now : M Instant :=
  fun s => (Val (env_clock env (ticks s)), tick s).

(** Lines 57-61: [for _ in range(ping_count)], at iteration [k] with
    [todo] iterations left. *)
Fixpoint for_range (i : nat) (ip : string) (k todo : nat) : M unit :=
  match todo with
  | O => ret tt
  | S todo' =>
      response_time <- ping i k ip ;;
      (if is_not_None response_time then
         modify (fun s => set_latencies (latencies s ++ [response_time]) s) ;;
         modify (set_all_unreachable false)
       else ret tt) ;;
      for_range i ip (S k) todo'
  end.

(** Lines 52-72: the body of [for entry in ips], for the entry at
    position [i]. *)
Definition host_body (output_file : string) (ping_count i : nat)
    (entry : Entry) : M unit :=
  let name := name entry in
  let ip := ip entry in
  modify (set_latencies []) ;;
  try_except
    (for_range i ip 0 ping_count)
    (fun e => logging ERROR ("Error pinging " ++ name ++ " (" ++ ip ++ "): " ++ e)) ;;
  now <- datetime_now ;;
  let current_time := strftime now in
  lat <- gets latencies ;;
  match lat with
  | _ :: _ =>
      let average_latency := (sum (env_compensated env) lat / len lat)%float in
      logging INFO (name ++ " (" ++ ip ++ ") average response time is " ++
                    format_4f average_latency ++ " seconds at " ++ current_time) ;;
      writerow output_file [name; ip; format_4f average_latency; current_time]
  | [] =>
      logging WARNING (name ++ " (" ++ ip ++ ") is unreachable at " ++ current_time) ;;
      writerow output_file [name; ip; "Unreachable"; current_time]
  end.

(** Line 51: [for entry in ips], from position [i] on. *)
Fixpoint for_entries (output_file : string) (ping_count i : nat)
    (ips : list Entry) : M unit :=
  match ips with
  | [] => ret tt
  | entry :: rest =>
      host_body output_file ping_count i entry ;;
      for_entries output_file ping_count (S i) rest
  end.

(** [ping_ips(ips, output_file, ping_count)]; a negative [ping_count]
    behaves as 0. *)
Definition ping_ips (ips : list Entry) (output_file : string)
    (ping_count : nat) : M bool :=
  makedirs (dirname output_file) ;;
  modify (set_all_unreachable true) ;;
  open_w output_file ;;
  writerow output_file header ;;
  for_entries output_file ping_count 0 ips ;;
  gets all_unreachable.

(** The SMTP session of [send_email]: connect, [starttls], [login],
    [send_message]. *)
Definition smtp_session (msg : Email) : M unit :=
  fun s =>
    match env_smtp env msg with
    | None => (Val tt, add_outbox msg s)
    | Some e => (Exn e, s)
    end.

(** [send_email(subject, body, attachment_path, recipient)].  The subject
    and the addresses are taken to be strings of one line, which
    [EmailMessage] accepts as header values (lines 86-89); [content] is the
    text handed to [set_content]. *)
Definition send_email (subject body attachment_path recipient : string)
    : M unit :=
  att <- (match attachment_path with
          | EmptyString => ret None
          | _ =>
              file_data <- read_rb attachment_path ;;
              ret (Some (basename attachment_path, file_data))
          end) ;;
  let msg := mkEmail subject (EMAIL_ADDRESS cfg) recipient body att in
  try_except
    (smtp_session msg ;;
     logging INFO ("Email sent to " ++ recipient))
    (fun e => logging ERROR ("Failed to send email to " ++ recipient ++ ": " ++ e)).

Definition report_path (now : Instant) : string :=
  "C:/Users/kapingura/Documents/BHC/reports/BHC LINK REPORT_" ++
  strftime_compact now ++ ".csv".

(** [generate_report()]; [ping_count] takes its default, 5. *)
Definition generate_report : M unit :=
  now <- datetime_now ;;
  let output_file := report_path now in
  all_unreachable <- ping_ips (ip_addresses cfg) output_file 5 ;;
  if all_unreachable : bool then
    send_email "Ping Report - Error"
               "All IPs are unreachable or there is no internet access."
               output_file (ERROR_RECIPIENT_EMAIL cfg)
  else
    send_email "Network Status Report"
               "Please find attached the latest network status report."
               output_file (REPORT_RECIPIENT_EMAIL cfg).

End Program.

(** ** Vocabulary of the statements

    What one host's probing amounts to, read off the environment. *)

Section Probe.

Variable env : Env.

(** The outcomes of the calls of [ping] made for the host at position [i],
    from iteration [k] on with [todo] iterations left: the loop stops after
    the first call that raises. *)
Fixpoint attempts (i : nat) (ip : string) (k todo : nat) : list Outcome :=
  match todo with
  | O => []
  | S todo' =>
      match env_ping env i k ip with
      | Raises e => [Raises e]
      | Returns v => Returns v :: attempts i ip (S k) todo'
      end
  end.

(** An attempt is successful for [ping_ips] when it returned something
    other than [None]. *)
Definition successful (o : Outcome) : bool :=
  match o with
  | Returns v => is_not_None v
  | Raises _ => false
  end.

Definition value_of (o : Outcome) : PyVal :=
  match o with
  | Returns v => v
  | Raises _ => PNone
  end.

(** The values of the successful attempts, in order. *)
Definition successes (l : list Outcome) : list PyVal :=
  map value_of (filter successful l).

(** The exception that ended the attempts, if one did. *)
Definition raised (l : list Outcome) : option string :=
  match last l (Returns PNone) with
  | Raises e => Some e
  | Returns _ => None
  end.

Definition is_empty {A : Type} (l : list A) : bool :=
  match l with
  | [] => true
  | _ :: _ => false
  end.

(** The third cell of a row, from the latencies gathered. *)
Definition cell (lat : list PyVal) : string :=
  match lat with
  | [] => "Unreachable"
  | _ :: _ => format_4f (sum (env_compensated env) lat / len lat)%float
  end.

(** The row of the host at position [i], when the clock is read for the
    [t]-th time. *)
Definition host_row (n i t : nat) (entry : Entry) : Row :=
  [name entry; ip entry;
   cell (successes (attempts i (ip entry) 0 n));
   strftime (env_clock env t)].

Fixpoint rows_from (n i t : nat) (ips : list Entry) : list Row :=
  match ips with
  | [] => []
  | entry :: rest => host_row n i t entry :: rows_from n (S i) (S t) rest
  end.

(** No host from position [i] on has a successful attempt. *)
Fixpoint all_silent (n i : nat) (ips : list Entry) : bool :=
  match ips with
  | [] => true
  | entry :: rest =>
      is_empty (successes (attempts i (ip entry) 0 n)) && all_silent n (S i) rest
  end.

(** The calls of [ping] for the host at position [i]. *)
Definition host_echo (n i : nat) (entry : Entry) : list (nat * nat * string) :=
  map (fun k => (i, k, ip entry)) (seq 0 (List.length (attempts i (ip entry) 0 n))).

(** What the body of the outer loop logs for the host at position [i]. *)
Definition error_record (entry : Entry) (e : string) : LogRecord :=
  (ERROR, "Error pinging " ++ name entry ++ " (" ++ ip entry ++ "): " ++ e).

Definition summary_record (entry : Entry) (lat : list PyVal)
    (current_time : string) : LogRecord :=
  match lat with
  | [] =>
      (WARNING, name entry ++ " (" ++ ip entry ++ ") is unreachable at " ++
                current_time)
  | _ :: _ =>
      (INFO, name entry ++ " (" ++ ip entry ++ ") average response time is " ++
             cell lat ++ " seconds at " ++ current_time)
  end.

Definition host_log (n i t : nat) (entry : Entry) : list LogRecord :=
  let att := attempts i (ip entry) 0 n in
  match raised att with
  | Some e => [error_record entry e]
  | None => []
  end ++ [summary_record entry (successes att) (strftime (env_clock env t))].

Fixpoint log_from (n i t : nat) (ips : list Entry) : list LogRecord :=
  match ips with
  | [] => []
  | entry :: rest => host_log n i t entry ++ log_from n (S i) (S t) rest
  end.

Fixpoint echo_from (n i : nat) (ips : list Entry) : list (nat * nat * string) :=
  match ips with
  | [] => []
  | entry :: rest => host_echo n i entry ++ echo_from n (S i) rest
  end.

(** For each reading of the clock in the loop from position [i] on, the
    number of calls of [ping] made before it, [c] calls having been made
    before the loop. *)
Fixpoint reads_from (n i c : nat) (ips : list Entry) : list nat :=
  match ips with
  | [] => []
  | entry :: rest =>
      let c' := c + List.length (attempts i (ip entry) 0 n) in
      c' :: reads_from n (S i) c' rest
  end.

End Probe.

(** A reply of [ping] that carries a delay: neither the [None] of a
    timeout nor the [False] of an error. *)
Definition carries_delay (o : Outcome) : bool :=
  match o with
  | Returns (PFloat _) => true
  | _ => false
  end.

(** The environment [env] with the network behaviour towards the host at
    position [i] replaced by [f]. *)
Definition with_host (env : Env) (i : nat) (f : nat -> string -> Outcome) : Env :=
  mkEnv (fun j k ip => if j =? i then f k ip else env_ping env j k ip)
        (env_clock env) (env_smtp env) (env_compensated env).

(** ** What is observed of a run *)

(** The rows of [output_file] once [ping_ips] is done, header included. *)
Definition report (env : Env) (ips : list Entry) (out : string) (n : nat)
    (s : State) : list Row :=
  file_content (snd (ping_ips env ips out n s)) out.

(** The calls of [ping] that [ping_ips] added to the trace. *)
Definition pinged (env : Env) (ips : list Entry) (out : string) (n : nat)
    (s : State) : list (nat * nat * string) :=
  skipn (List.length (echo s)) (echo (snd (ping_ips env ips out n s))).

(** For each reading of the clock by [ping_ips], the number of calls of
    [ping] made before it. *)
Definition readings (env : Env) (ips : list Entry) (out : string) (n : nat)
    (s : State) : list nat :=
  skipn (List.length (reads s)) (reads (snd (ping_ips env ips out n s))).

(** How many calls of a trace are for the host at position [i]. *)
Definition calls_to (i : nat) (tr : list (nat * nat * string)) : nat :=
  List.length (filter (fun c => fst (fst c) =? i) tr).


Fixpoint has_char (c : ascii) (s : string) : bool :=
  match s with
  | EmptyString => false
  | String d r => if Ascii.eqb d c then true else has_char c r
  end.

Definition error_notice (cfg : Config) (att : option (string * list Row)) : Email :=
  mkEmail "Ping Report - Error" (EMAIL_ADDRESS cfg) (ERROR_RECIPIENT_EMAIL cfg)
          "All IPs are unreachable or there is no internet access." att.

Definition normal_notice (cfg : Config) (att : option (string * list Row)) : Email :=
  mkEmail "Network Status Report" (EMAIL_ADDRESS cfg) (REPORT_RECIPIENT_EMAIL cfg)
          "Please find attached the latest network status report." att.

(** What the server accepts of a message. *)
Definition accepted (env : Env) (msg : Email) : list Email :=
  match env_smtp env msg with
  | None => [msg]
  | Some _ => []
  end.

(** ** Sample hosts and environments *)

Definition hostA : Entry := mkEntry "A" "1.1.1.1".
Definition hostB : Entry := mkEntry "B" "2.2.2.2".

(** A clock that advances by one minute between readings. *)
Definition sample_clock (t : nat) : Instant := mkInstant 2024 3 9 14 (5 + t) 7.

(** Nobody answers: every call of [ping] times out. *)
Definition silent_env : Env :=
  mkEnv (fun _ _ _ => Returns PNone) sample_clock (fun _ => None) true.

(** The first host answers in 10 ms, then its second call raises; the
    later calls would answer in 20 ms.  Other hosts answer in 30 ms. *)
Definition raising_env : Env :=
  mkEnv (fun i k _ =>
           match i, k with
           | 0, 0 => Returns (PFloat 0.01)
           | 0, 1 => Raises "Operation not permitted"
           | 0, _ => Returns (PFloat 0.02)
           | _, _ => Returns (PFloat 0.03)
           end)
        sample_clock (fun _ => None) true.

(** The first host answers five times, the others never. *)
Definition scenario1_env : Env :=
  mkEnv (fun i k _ =>
           match i with
           | 0 => Returns (PFloat (nth k [0.01; 0.02; 0.01; 0.03; 0.01] 0)%float)
           | _ => Returns PNone
           end)
        sample_clock (fun _ => None) true.

(** The library reports an error (an unknown host, say) by returning
    [False], every time. *)
Definition false_env : Env :=
  mkEnv (fun _ _ _ => Returns PFalse) sample_clock (fun _ => None) true.

(** An error reply first, then an answer in half a second. *)
Definition mixed_env : Env :=
  mkEnv (fun _ k _ =>
           match k with
           | 0 => Returns PFalse
           | _ => Returns (PFloat 0.5)
           end)
        sample_clock (fun _ => None) true.

Definition sample_cfg (ips : list Entry) : Config :=
  mkConfig "monitor@example.org" "reports@example.org" "alerts@example.org" ips.

(** ** Further vocabulary: the log, and sample failures *)

(** The records that [ping_ips] added to the log. *)
Definition logged (env : Env) (ips : list Entry) (out : string) (n : nat)
    (s : State) : list LogRecord :=
  skipn (List.length (log s)) (log (snd (ping_ips env ips out n s))).

Definition is_ERROR (r : LogRecord) : bool :=
  match fst r with
  | ERROR => true
  | _ => false
  end.

(** The summary record that goes with a row of the report. *)
Definition record_of_row (row : Row) : LogRecord :=
  match row with
  | [nm; addr; c; t] =>
      if String.eqb c "Unreachable"
      then (WARNING, nm ++ " (" ++ addr ++ ") is unreachable at " ++ t)
      else (INFO, nm ++ " (" ++ addr ++ ") average response time is " ++ c ++
                  " seconds at " ++ t)
  | _ => (INFO, EmptyString)
  end.

(** No network at all: every call of [ping] raises. *)
Definition offline_env : Env :=
  mkEnv (fun _ _ _ => Raises "Network is unreachable") sample_clock (fun _ => None)
        true.

(** The network is fine but the SMTP server refuses the session. *)
Definition smtp_down_env : Env :=
  mkEnv (fun _ _ _ => Returns (PFloat 0.03)) sample_clock
        (fun _ => Some "Connection refused") true.


(** A state in which the file "old.csv" exists. *)
Definition state_with_file : State :=
  set_fs (update "old.csv" [["kept"]] (fs initial_state)) initial_state.

(** The message that [send_email] builds: the attachment is left out for an
    empty [attachment_path], otherwise it is the content of the file under
    its base name. *)
Definition message_of (cfg : Config) (subject body path recipient : string)
    (rows : list Row) : Email :=
  mkEmail subject (EMAIL_ADDRESS cfg) recipient body
          match path with
          | EmptyString => None
          | _ => Some (basename path, rows)
          end.

(** * Properties *)

Local Open Scope list_scope.

(** ** The inner loop *)

Lemma state_eq (s : State) a l f g e t r o :
  all_unreachable s = a -> latencies s = l -> fs s = f -> log s = g ->
  echo s = e -> ticks s = t -> reads s = r -> outbox s = o ->
  s = mkState a l f g e t r o.
Proof.
  destruct s; simpl; intros; subst; reflexivity.
Qed.

Lemma successes_cons_returns v l :
  successes (Returns v :: l) =
  (if is_not_None v then [v] else []) ++ successes l.
Proof.
  unfold successes; simpl. destruct (is_not_None v); reflexivity.
Qed.

Lemma raised_cons_returns v l :
  l <> [] -> raised (Returns v :: l) = raised l.
Proof.
  unfold raised; intros H. destruct l as [|o l]; [congruence|]. reflexivity.
Qed.

Lemma for_range_run env i ip todo : forall k s,
  for_range env i ip k todo s =
  (match raised (attempts env i ip k todo) with
   | Some e => Exn e
   | None => Val tt
   end,
   mkState (all_unreachable s && is_empty (successes (attempts env i ip k todo)))
           (latencies s ++ successes (attempts env i ip k todo))
           (fs s) (log s)
           (echo s ++ map (fun j => (i, j, ip))
                          (seq k (List.length (attempts env i ip k todo))))
           (ticks s) (reads s) (outbox s)).
Proof.
  induction todo as [|todo IH]; intros k s.
  - simpl. unfold ret. f_equal.
    apply state_eq; simpl; auto using andb_true_r, app_nil_r.
  - simpl. unfold bind at 1, ping.
    destruct (env_ping env i k ip) as [v|e] eqn:E.
    + unfold bind at 1.
      assert (Hr : raised (Returns v :: attempts env i ip (S k) todo) =
                   raised (attempts env i ip (S k) todo) \/
                   attempts env i ip (S k) todo = []).
      { destruct (attempts env i ip (S k) todo) eqn:A; [now right|left].
        apply raised_cons_returns; congruence. }
      rewrite successes_cons_returns.
      destruct (is_not_None v) eqn:N.
      * unfold bind at 1, modify. rewrite IH. simpl.
        f_equal.
        -- destruct Hr as [->| ->]; reflexivity.
        -- f_equal; rewrite <- ?app_assoc, ?andb_false_r; reflexivity.
      * unfold ret at 1. rewrite IH. simpl.
        f_equal.
        -- destruct Hr as [->| ->]; reflexivity.
        -- f_equal; rewrite <- ?app_assoc; reflexivity.
    + simpl. f_equal.
      apply state_eq; simpl; auto using andb_true_r, app_nil_r.
Qed.

(** ** The body of the outer loop *)

Lemma host_body_run env out n i entry s :
  host_body env out n i entry s =
  (Val tt,
   mkState (all_unreachable s &&
            is_empty (successes (attempts env i (ip entry) 0 n)))
           (successes (attempts env i (ip entry) 0 n))
           (update out (file_content s out ++ [host_row env n i (ticks s) entry])
                   (fs s))
           (log s ++ host_log env n i (ticks s) entry)
           (echo s ++ host_echo env n i entry)
           (S (ticks s))
           (reads s ++ [List.length (echo s ++ host_echo env n i entry)])
           (outbox s)).
Proof.
  unfold host_body, host_log, host_row, host_echo, error_record, summary_record.
  unfold bind at 1, modify at 1.
  unfold bind at 1, try_except. rewrite for_range_run. simpl.
  set (att := attempts env i (ip entry) 0 n).
  destruct (raised att) as [e|]; simpl;
    unfold bind at 1, datetime_now; simpl;
    unfold bind at 1, gets; simpl;
    destruct (successes att) as [|v lat] eqn:L; simpl;
    unfold bind, logging, writerow, modify, file_content;
    unfold set_fs, add_log, tick; simpl;
    rewrite <- ?app_assoc; reflexivity.
Qed.

(** ** The outer loop and [ping_ips] *)

Lemma update_same out rows f : update out rows f out = Some rows.
Proof.
  unfold update. rewrite String.eqb_refl. reflexivity.
Qed.

Lemma for_entries_run env out n ips : forall i s c,
  fs s out = Some c ->
  let r := for_entries env out n i ips s in
  fst r = Val tt /\
  all_unreachable (snd r) = all_unreachable s && all_silent env n i ips /\
  fs (snd r) out = Some (c ++ rows_from env n i (ticks s) ips) /\
  log (snd r) = log s ++ log_from env n i (ticks s) ips /\
  echo (snd r) = echo s ++ echo_from env n i ips /\
  ticks (snd r) = ticks s + List.length ips /\
  reads (snd r) = reads s ++ reads_from env n i (List.length (echo s)) ips /\
  outbox (snd r) = outbox s.
Proof.
  induction ips as [|entry rest IH]; intros i s c Hc.
  - simpl. rewrite andb_true_r, !app_nil_r, Nat.add_0_r. repeat split; auto.
  - assert (E : for_entries env out n i (entry :: rest) s =
               for_entries env out n (S i) rest
                 (snd (host_body env out n i entry s))).
    { cbn [for_entries]. unfold bind. rewrite host_body_run. reflexivity. }
    rewrite E, host_body_run. cbn [snd].
    set (s1 := mkState _ _ _ _ _ _ _ _).
    assert (Hc1 : fs s1 out = Some (c ++ [host_row env n i (ticks s) entry])).
    { subst s1. cbn [fs]. rewrite update_same. unfold file_content.
      rewrite Hc. reflexivity. }
    destruct (IH (S i) s1 _ Hc1) as (H1 & H2 & H3 & H4 & H5 & H6 & H7 & H8).
    cbv zeta. rewrite H1, H2, H3, H4, H5, H6, H7, H8. subst s1.
    cbn [all_unreachable log echo ticks reads outbox all_silent rows_from
         log_from echo_from reads_from List.length].
    assert (El : List.length (echo s ++ host_echo env n i entry) =
                 List.length (echo s) +
                 List.length (attempts env i (ip entry) 0 n)).
    { unfold host_echo. rewrite length_app, length_map, length_seq. reflexivity. }
    rewrite El, <- !app_assoc, andb_assoc, Nat.add_succ_r. repeat split; auto.
Qed.

Lemma dirname_cases (out : string) :
  dirname out = EmptyString \/ exists c d, dirname out = String c d.
Proof.
  destruct (dirname out) as [|c d]; [left|right]; eauto.
Qed.

(** From a path with a directory part the whole function runs. *)
Lemma ping_ips_run env ips out n s :
  dirname out <> EmptyString ->
  let r := ping_ips env ips out n s in
  fst r = Val (all_silent env n 0 ips) /\
  fs (snd r) out = Some (header :: rows_from env n 0 (ticks s) ips) /\
  log (snd r) = log s ++ log_from env n 0 (ticks s) ips /\
  echo (snd r) = echo s ++ echo_from env n 0 ips /\
  ticks (snd r) = ticks s + List.length ips /\
  reads (snd r) = reads s ++ reads_from env n 0 (List.length (echo s)) ips /\
  outbox (snd r) = outbox s.
Proof.
  intros Hd.
  pose (s0 := set_fs (update out [] (fs s)) (set_all_unreachable true s)).
  pose (s1 := set_fs (update out (file_content s0 out ++ [header]) (fs s0)) s0).
  assert (Hc1 : fs s1 out = Some ([] ++ [header])).
  { subst s1 s0. cbn [fs set_fs]. rewrite update_same. unfold file_content.
    cbn [fs set_fs]. rewrite update_same. reflexivity. }
  destruct (for_entries_run env out n ips 0 s1 _ Hc1)
    as (H1 & H2 & H3 & H4 & H5 & H6 & H7 & H8).
  assert (E : ping_ips env ips out n s =
              (Val (all_unreachable (snd (for_entries env out n 0 ips s1))),
               snd (for_entries env out n 0 ips s1))).
  { unfold ping_ips. unfold bind at 1, makedirs.
    destruct (dirname out) as [|c d]; [congruence|].
    unfold open_w, writerow, gets, bind, modify.
    match goal with
    | |- context [for_entries env out n 0 ips ?x] => change x with s1
    end.
    destruct (for_entries env out n 0 ips s1) as [r s2].
    cbn [fst snd] in *. subst r. reflexivity. }
  cbv zeta. rewrite E. cbn [fst snd].
  rewrite H2, H3, H4, H5, H6, H7, H8. subst s1 s0. simpl. repeat split; auto.
Qed.

(** From a bare file name nothing runs: line 44 raises. *)
Lemma ping_ips_bare env ips out n s :
  dirname out = EmptyString ->
  ping_ips env ips out n s =
  (Exn "[Errno 2] No such file or directory: ''"%string, s).
Proof.
  intros Hd. unfold ping_ips. unfold bind at 1, makedirs. rewrite Hd.
  reflexivity.
Qed.

(** ** Paths *)

Lemma has_slash_append (a b : string) :
  has_slash (a ++ b)%string = has_slash a || has_slash b.
Proof.
  induction a as [|c a IH]; simpl; [reflexivity|].
  destruct (Ascii.eqb c "/"); simpl; auto.
Qed.

Lemma head_of_no_slash (p : string) :
  has_slash p = false -> head_of p = EmptyString.
Proof.
  destruct p as [|c r]; [reflexivity|]. simpl.
  destruct (Ascii.eqb c "/"); [discriminate|]. intros ->. reflexivity.
Qed.

Lemma head_of_slash (p : string) :
  has_slash p = true -> head_of p <> EmptyString.
Proof.
  destruct p as [|c r]; [discriminate|]. simpl.
  destruct (has_slash r); [discriminate|].
  destruct (Ascii.eqb c "/"); discriminate.
Qed.

Lemma rstrip_slashes_empty (p : string) :
  rstrip_slashes p = EmptyString -> all_slashes p = true.
Proof.
  induction p as [|c r IH]; [reflexivity|]. simpl.
  destruct (rstrip_slashes r); [|discriminate].
  destruct (Ascii.eqb c "/"); [intros _; apply IH; reflexivity|discriminate].
Qed.

(** A bare file name has no directory part, any other path has one. *)
Lemma dirname_no_slash (p : string) :
  has_slash p = false -> dirname p = EmptyString.
Proof.
  intros H. unfold dirname. rewrite (head_of_no_slash p H). reflexivity.
Qed.

Lemma dirname_slash (p : string) :
  has_slash p = true -> dirname p <> EmptyString.
Proof.
  intros H. unfold dirname. pose proof (head_of_slash p H) as Hh.
  destruct (all_slashes (head_of p)) eqn:A; [exact Hh|].
  intros E. apply rstrip_slashes_empty in E. congruence.
Qed.

Lemma dirname_report_path (now : Instant) :
  dirname (report_path now) <> EmptyString.
Proof.
  apply dirname_slash. reflexivity.
Qed.

(** ** The run of [ping_ips], as observed *)

Lemma report_run env ips out n s :
  dirname out <> EmptyString ->
  report env ips out n s = header :: rows_from env n 0 (ticks s) ips.
Proof.
  intros Hd. unfold report, file_content.
  destruct (ping_ips_run env ips out n s Hd) as (_ & H & _). cbv zeta in H.
  rewrite H. reflexivity.
Qed.

Lemma pinged_run env ips out n s :
  dirname out <> EmptyString ->
  pinged env ips out n s = echo_from env n 0 ips.
Proof.
  intros Hd. unfold pinged.
  destruct (ping_ips_run env ips out n s Hd) as (_ & _ & _ & H & _).
  cbv zeta in H. rewrite H, skipn_app, skipn_all, Nat.sub_diag. reflexivity.
Qed.

Lemma pinged_bare env ips out n s :
  dirname out = EmptyString -> pinged env ips out n s = [].
Proof.
  intros Hd. unfold pinged. rewrite ping_ips_bare by assumption.
  apply skipn_all.
Qed.

Lemma logged_run env ips out n s :
  dirname out <> EmptyString ->
  logged env ips out n s = log_from env n 0 (ticks s) ips.
Proof.
  intros Hd. unfold logged.
  destruct (ping_ips_run env ips out n s Hd) as (_ & _ & H & _).
  cbv zeta in H. rewrite H, skipn_app, skipn_all, Nat.sub_diag. reflexivity.
Qed.

Lemma readings_run env ips out n s :
  dirname out <> EmptyString ->
  readings env ips out n s = reads_from env n 0 (List.length (echo s)) ips.
Proof.
  intros Hd. unfold readings.
  destruct (ping_ips_run env ips out n s Hd) as (_ & _ & _ & _ & _ & H & _).
  cbv zeta in H. rewrite H, skipn_app, skipn_all, Nat.sub_diag. reflexivity.
Qed.

Lemma returned_run env ips out n s :
  dirname out <> EmptyString ->
  fst (ping_ips env ips out n s) = Val (all_silent env n 0 ips).
Proof.
  intros Hd. apply (ping_ips_run env ips out n s Hd).
Qed.

(** ** Rows, by position *)

Lemma nth_error_rows_from env n ips : forall i t j,
  nth_error (rows_from env n i t ips) j =
  option_map (host_row env n (i + j) (t + j)) (nth_error ips j).
Proof.
  induction ips as [|entry rest IH]; intros i t j.
  - destruct j; reflexivity.
  - destruct j as [|j]; simpl.
    + rewrite !Nat.add_0_r. reflexivity.
    + rewrite IH, !Nat.add_succ_r. reflexivity.
Qed.

Lemma length_rows_from env n ips : forall i t,
  List.length (rows_from env n i t ips) = List.length ips.
Proof.
  induction ips as [|entry rest IH]; intros i t; simpl; auto.
Qed.

Lemma all_silent_spec env n ips : forall i,
  all_silent env n i ips = true <->
  (forall j entry, nth_error ips j = Some entry ->
                   successes (attempts env (i + j) (ip entry) 0 n) = []).
Proof.
  induction ips as [|entry rest IH]; intros i; simpl.
  - split; auto. intros _ j entry H. destruct j; discriminate.
  - rewrite andb_true_iff, IH. split.
    + intros [H0 H1] j e Hj. destruct j as [|j]; simpl in Hj.
      * injection Hj as <-. rewrite Nat.add_0_r.
        destruct (successes _); [reflexivity|discriminate].
      * rewrite Nat.add_succ_r. apply (H1 j e Hj).
    + intros H. split.
      * specialize (H 0 entry eq_refl). rewrite Nat.add_0_r in H.
        rewrite H. reflexivity.
      * intros j e Hj. specialize (H (S j) e Hj).
        rewrite Nat.add_succ_r in H. exact H.
Qed.

(** ** Attempts, by iteration *)

Lemma length_attempts_le env i ip todo : forall k,
  List.length (attempts env i ip k todo) <= todo.
Proof.
  induction todo as [|todo IH]; intros k; simpl; [lia|].
  destruct (env_ping env i k ip); simpl; [specialize (IH (S k))|]; lia.
Qed.

Lemma attempts_all_return env i ip todo : forall k,
  (forall j, k <= j < k + todo -> exists w, env_ping env i j ip = Returns w) ->
  attempts env i ip k todo = map (fun j => env_ping env i j ip) (seq k todo).
Proof.
  induction todo as [|todo IH]; intros k H; simpl; [reflexivity|].
  destruct (H k ltac:(lia)) as [w Hw]. rewrite Hw. f_equal.
  apply IH. intros j Hj. apply H. lia.
Qed.

Lemma attempts_raise_at env i ip todo : forall k m e,
  m < todo ->
  (forall j, k <= j < k + m -> exists w, env_ping env i j ip = Returns w) ->
  env_ping env i (k + m) ip = Raises e ->
  attempts env i ip k todo =
  map (fun j => env_ping env i j ip) (seq k m) ++ [Raises e].
Proof.
  induction todo as [|todo IH]; intros k m e Hm H He; [lia|].
  destruct m as [|m]; simpl.
  - rewrite Nat.add_0_r in He. rewrite He. reflexivity.
  - destruct (H k ltac:(lia)) as [w Hw]. rewrite Hw. f_equal.
    apply IH; [lia| |].
    + intros j Hj. apply H. lia.
    + rewrite <- He. f_equal. lia.
Qed.




(** ** The trace of calls *)

Lemma calls_to_app i tr1 tr2 :
  calls_to i (tr1 ++ tr2) = calls_to i tr1 + calls_to i tr2.
Proof.
  unfold calls_to. rewrite filter_app, length_app. reflexivity.
Qed.

Lemma calls_to_map i j ipa (l : list nat) :
  calls_to i (map (fun k => (j, k, ipa)) l) =
  if j =? i then List.length l else 0.
Proof.
  unfold calls_to. induction l as [|k l IH]; simpl.
  - destruct (j =? i); reflexivity.
  - destruct (j =? i); simpl; rewrite IH; reflexivity.
Qed.

Lemma calls_to_echo_from env n ips : forall i0 j entry,
  nth_error ips j = Some entry ->
  calls_to (i0 + j) (echo_from env n i0 ips) =
  List.length (attempts env (i0 + j) (ip entry) 0 n).
Proof.
  assert (Hout : forall ips i0 i, i < i0 ->
                 calls_to i (echo_from env n i0 ips) = 0).
  { induction ips0 as [|e rest IH]; intros i0 i Hi; simpl; [reflexivity|].
    rewrite calls_to_app. unfold host_echo. rewrite calls_to_map.
    destruct (Nat.eqb_spec i0 i); [lia|]. rewrite IH; lia. }
  induction ips as [|e rest IH]; intros i0 j entry Hj.
  - destruct j; discriminate.
  - simpl. rewrite calls_to_app. unfold host_echo at 1. rewrite calls_to_map.
    destruct j as [|j]; simpl in Hj.
    + injection Hj as <-. rewrite Nat.add_0_r, Nat.eqb_refl, length_seq.
      rewrite Hout; lia.
    + destruct (Nat.eqb_spec i0 (i0 + S j)); [lia|].
      rewrite Nat.add_succ_r. apply (IH (S i0) j entry Hj).
Qed.

(** ** Replacing the behaviour of one host *)

Lemma attempts_with_host env i f j ipa todo : forall k,
  j <> i ->
  attempts (with_host env i f) j ipa k todo = attempts env j ipa k todo.
Proof.
  induction todo as [|todo IH]; intros k Hj; simpl; [reflexivity|].
  destruct (Nat.eqb_spec j i); [contradiction|].
  rewrite IH by assumption. reflexivity.
Qed.

Lemma host_row_with_host env i f n j t entry :
  j <> i ->
  host_row (with_host env i f) n j t entry = host_row env n j t entry.
Proof.
  intros Hj. unfold host_row. rewrite attempts_with_host by assumption.
  reflexivity.
Qed.

(** ** The format of the average *)

Lemma has_char_append c a b :
  has_char c (a ++ b)%string = has_char c a || has_char c b.
Proof.
  induction a as [|d a IH]; simpl; [reflexivity|].
  destruct (Ascii.eqb d c); simpl; auto.
Qed.

Lemma fixed4_has_point (negative : bool) (q : Q) :
  has_char "." (fixed4 negative q) = true.
Proof.
  unfold fixed4. rewrite !has_char_append. simpl.
  rewrite !orb_true_r. reflexivity.
Qed.

Lemma format_4f_not_Unreachable (x : float) : format_4f x <> "Unreachable"%string.
Proof.
  unfold format_4f. destruct (Prim2SF x) as [s|s| |s m e].
  - intros H. pose proof (fixed4_has_point s 0) as P. rewrite H in P.
    discriminate P.
  - destruct s; discriminate.
  - discriminate.
  - intros H.
    pose proof (fixed4_has_point s (inject_Z (Z.pos m) * pow2 e)) as P.
    rewrite H in P. discriminate P.
Qed.

Lemma cell_Unreachable env (lat : list PyVal) :
  cell env lat = "Unreachable"%string <-> lat = [].
Proof.
  destruct lat as [|v lat]; simpl.
  - tauto.
  - split; [|discriminate]. intros H.
    exfalso. exact (format_4f_not_Unreachable _ H).
Qed.

(** ** Sending the report *)

Lemma send_email_run env cfg subject body path recipient s rows :
  path <> EmptyString ->
  fs s path = Some rows ->
  let msg := mkEmail subject (EMAIL_ADDRESS cfg) recipient body
                     (Some (basename path, rows)) in
  send_email env cfg subject body path recipient s =
  (Val tt,
   match env_smtp env msg with
   | None =>
       add_log (INFO, ("Email sent to " ++ recipient)%string) (add_outbox msg s)
   | Some e =>
       add_log (ERROR, ("Failed to send email to " ++ recipient ++ ": " ++ e)%string) s
   end).
Proof.
  intros Hp Hfs msg. unfold send_email.
  destruct path as [|c p]; [congruence|].
  unfold bind at 1. unfold bind at 1, read_rb. rewrite Hfs.
  unfold ret at 1. unfold try_except, bind, smtp_session. fold msg.
  destruct (env_smtp env msg); reflexivity.
Qed.

Lemma report_path_not_empty now : report_path now <> EmptyString.
Proof.
  unfold report_path. discriminate.
Qed.

Lemma generate_report_run env cfg s :
  let path := report_path (env_clock env (ticks s)) in
  let p := ping_ips env (ip_addresses cfg) path 5 (tick s) in
  let att := Some (basename path, file_content (snd p) path) in
  let r := generate_report env cfg s in
  fst r = Val tt /\
  fs (snd r) = fs (snd p) /\
  outbox (snd r) =
  outbox s ++ accepted env (if all_silent env 5 0 (ip_addresses cfg)
                            then error_notice cfg att
                            else normal_notice cfg att).
Proof.
  intros path p att.
  destruct (ping_ips_run env (ip_addresses cfg) path 5 (tick s)
              (dirname_report_path _))
    as (H1 & H2 & _ & _ & _ & _ & H6).
  fold p in H1, H2, H6. cbv zeta in H1, H2, H6.
  assert (E : generate_report env cfg s =
              (if all_silent env 5 0 (ip_addresses cfg)
               then send_email env cfg "Ping Report - Error"
                      "All IPs are unreachable or there is no internet access."
                      path (ERROR_RECIPIENT_EMAIL cfg)
               else send_email env cfg "Network Status Report"
                      "Please find attached the latest network status report."
                      path (REPORT_RECIPIENT_EMAIL cfg)) (snd p)).
  { unfold generate_report. unfold bind at 1, datetime_now.
    unfold bind at 1. fold path. fold p.
    destruct p as [r s2]. cbn [fst snd] in *. rewrite H1. reflexivity. }
  cbv zeta. rewrite E.
  assert (Hc : file_content (snd p) path =
               header :: rows_from env 5 0 (ticks (tick s)) (ip_addresses cfg)).
  { unfold file_content. rewrite H2. reflexivity. }
  unfold att. rewrite Hc.
  destruct (all_silent env 5 0 (ip_addresses cfg));
    rewrite (send_email_run _ _ _ _ _ _ _ _ (report_path_not_empty _) H2);
    unfold accepted, error_notice, normal_notice; cbn [fst snd];
    destruct (env_smtp env _); cbn [fs outbox add_log add_outbox];
    rewrite H6, ?app_nil_r; auto.
Qed.

(** ** Sample runs *)

Example scenario1_report :
  report scenario1_env [hostA; hostB] "reports/report.csv" 5 initial_state =
  [header;
   ["A"; "1.1.1.1"; "0.0160"; "2024-03-09 14:05:07"];
   ["B"; "2.2.2.2"; "Unreachable"; "2024-03-09 14:06:07"]]%string
  /\ fst (ping_ips scenario1_env [hostA; hostB] "reports/report.csv" 5
                   initial_state)
     = Val false.
Proof. split; vm_compute; reflexivity. Qed.

Example scenario2_flag :
  fst (ping_ips silent_env [hostA; hostB] "reports/report.csv" 5 initial_state)
  = Val true.
Proof. vm_compute. reflexivity. Qed.

Example scenario3_mean :
  cell silent_env [PFloat 0.05] = "0.0500"%string.
Proof. vm_compute. reflexivity. Qed.

(** The floats 0.0002 and 0.0003 average to a float above 0.00025. *)
Example rounded_average :
  cell silent_env [PFloat 0.0002; PFloat 0.0003] = "0.0003"%string.
Proof. vm_compute. reflexivity. Qed.

(** Where the way of summing shows: a large term that cancels. *)
Example compensated_sum :
  sum true [PFloat 1e16; PFloat 1; PFloat (-1e16)] = 1%float /\
  sum false [PFloat 1e16; PFloat 1; PFloat (-1e16)] = 0%float.
Proof. split; vm_compute; reflexivity. Qed.

(** ** The claims *)

Lemma successes_app_raise (l : list Outcome) (e : string) :
  successes (l ++ [Raises e]) = successes l.
Proof.
  unfold successes. rewrite filter_app, map_app. simpl. apply app_nil_r.
Qed.

Lemma raised_app_raise (l : list Outcome) (e : string) :
  raised (l ++ [Raises e]) = Some e.
Proof.
  unfold raised. rewrite last_last. reflexivity.
Qed.

Lemma in_log_from env n ips : forall i0 t i entry e,
  nth_error ips i = Some entry ->
  raised (attempts env (i0 + i) (ip entry) 0 n) = Some e ->
  In (error_record entry e) (log_from env n i0 t ips).
Proof.
  induction ips as [|e0 rest IH]; intros i0 t i entry e Hi Hr.
  - destruct i; discriminate.
  - simpl. apply in_or_app. destruct i as [|i]; simpl in Hi.
    + injection Hi as <-. left. unfold host_log.
      rewrite Nat.add_0_r in Hr. rewrite Hr. simpl. auto.
    + right. apply (IH (S i0) (S t) i entry e Hi).
      rewrite Nat.add_succ_r in Hr. exact Hr.
Qed.

(** C1, as stated, fails: when the second of five calls raises, two calls
    are made for the host, not five. *)
Lemma C1_counterexample :
  calls_to 0 (pinged raising_env [hostA] "reports/report.csv" 5 initial_state) = 2 /\
  calls_to 0 (pinged raising_env [hostA] "reports/report.csv" 5 initial_state) <> 5.
Proof.
  split; vm_compute; [reflexivity|discriminate].
Qed.

(** C1, amended: for an output path with a directory part, an exception
    raised by a call of [ping] is caught around the whole attempt loop of the
    host.  It never leaves [ping_ips]; it ends the attempts of that host (the
    calls made are those up to and including the raising one, the rest are
    skipped), it is logged as an error, and the row of the host is computed
    from the values gathered before it.  A host none of whose calls raises
    is called exactly [ping_count] times, and no host is called more often
    than that. *)
Theorem C1_attempts_until_raise env ips out n s i entry :
  dirname out <> EmptyString ->
  nth_error ips i = Some entry ->
  (exists b, fst (ping_ips env ips out n s) = Val b) /\
  calls_to i (pinged env ips out n s) <= n /\
  ((forall k, k < n -> exists v, env_ping env i k (ip entry) = Returns v) ->
   calls_to i (pinged env ips out n s) = n) /\
  (forall k e,
     k < n ->
     (forall j, j < k -> exists v, env_ping env i j (ip entry) = Returns v) ->
     env_ping env i k (ip entry) = Raises e ->
     calls_to i (pinged env ips out n s) = S k /\
     In (error_record entry e) (log (snd (ping_ips env ips out n s))) /\
     nth_error (report env ips out n s) (S i) =
     Some [name entry; ip entry;
           cell env (successes (map (fun j => env_ping env i j (ip entry)) (seq 0 k)));
           strftime (env_clock env (ticks s + i))]).
Proof.
  intros Hd Hi.
  pose proof (calls_to_echo_from env n ips 0 i entry Hi) as Hc.
  rewrite <- (pinged_run env ips out n s Hd) in Hc. simpl in Hc.
  split; [eexists; apply returned_run; exact Hd|].
  split; [rewrite Hc; apply length_attempts_le|].
  split.
  - intros Hall. rewrite Hc, attempts_all_return, length_map, length_seq; auto.
    intros j Hj. apply Hall. lia.
  - intros k e Hk Hall He.
    assert (Ha : attempts env i (ip entry) 0 n =
                 map (fun j => env_ping env i j (ip entry)) (seq 0 k) ++ [Raises e]).
    { apply attempts_raise_at; auto. intros j Hj. apply Hall. lia. }
    split; [|split].
    + rewrite Hc, Ha, length_app, length_map, length_seq. simpl. lia.
    + destruct (ping_ips_run env ips out n s Hd) as (_ & _ & Hl & _).
      cbv zeta in Hl. rewrite Hl. apply in_or_app. right.
      apply (in_log_from env n ips 0 (ticks s) i entry e Hi).
      simpl. rewrite Ha. apply raised_app_raise.
    + rewrite report_run by exact Hd. simpl.
      rewrite nth_error_rows_from, Hi. simpl.
      unfold host_row. rewrite Ha, successes_app_raise. reflexivity.
Qed.

Lemma C1_attempts_until_raise_witness :
  dirname "reports/report.csv" <> EmptyString /\
  nth_error [hostA] 0 = Some hostA /\
  calls_to 0 (pinged raising_env [hostA] "reports/report.csv" 5 initial_state) <= 5.
Proof.
  split; [discriminate|]. split; [reflexivity|].
  apply (C1_attempts_until_raise raising_env [hostA] "reports/report.csv" 5
           initial_state 0 hostA); [discriminate|reflexivity].
Defined.

(** C2, as stated, fails: for the empty list [ping_ips] returns [True]. *)
Lemma C2_counterexample :
  fst (ping_ips silent_env [] "reports/report.csv" 5 initial_state) = Val true /\
  fst (ping_ips silent_env [] "reports/report.csv" 5 initial_state) <> Val false.
Proof.
  split; vm_compute; [reflexivity|discriminate].
Qed.

(** C2, amended: for the empty list of hosts and an output path with a
    directory part, [ping_ips] returns [True] (the flag keeps its initial
    value, as the loop body never runs) and the report holds the header
    only; [generate_report] then addresses the error message to the error
    recipient. *)
Theorem C2_empty_registry env out n s :
  (dirname out <> EmptyString ->
   fst (ping_ips env [] out n s) = Val true /\
   report env [] out n s = [header]) /\
  (forall cfg, ip_addresses cfg = [] ->
     outbox (snd (generate_report env cfg s)) =
     outbox s ++
     accepted env
       (error_notice cfg
          (Some (basename (report_path (env_clock env (ticks s))), [header])))).
Proof.
  split.
  - intros Hd. split; [apply returned_run|apply report_run]; exact Hd.
  - intros cfg Hcfg.
    destruct (generate_report_run env cfg s) as (_ & _ & H).
    cbv zeta in H. rewrite H, Hcfg. simpl all_silent. cbv iota.
    fold (report env [] (report_path (env_clock env (ticks s))) 5 (tick s)).
    rewrite report_run by apply dirname_report_path. reflexivity.
Qed.

Lemma C2_empty_registry_witness :
  dirname "reports/report.csv" <> EmptyString /\
  ip_addresses (sample_cfg []) = [] /\
  (fst (ping_ips silent_env [] "reports/report.csv" 5 initial_state) = Val true /\
   report silent_env [] "reports/report.csv" 5 initial_state = [header]) /\
  outbox (snd (generate_report silent_env (sample_cfg []) initial_state)) =
  outbox initial_state ++
  accepted silent_env
    (error_notice (sample_cfg [])
       (Some (basename (report_path (env_clock silent_env (ticks initial_state))),
              [header]))).
Proof.
  split; [discriminate|]. split; [reflexivity|].
  destruct (C2_empty_registry silent_env "reports/report.csv" 5 initial_state)
    as [H1 H2].
  split; [apply H1; discriminate|apply H2; reflexivity].
Defined.


(** C3: the code departs from the claim where a host answers with the
    error value of the library.  Here the one host answers [False] to each
    of its five calls, so no attempt brings a delay; all the same the row of
    the host shows an average, 0.0000, and [ping_ips] returns [False]. *)
Lemma C3_error_replies_clear_the_flag :
  (forall k, carries_delay (env_ping false_env 0 k (ip hostA)) = false) /\
  report false_env [hostA] "reports/report.csv" 5 initial_state =
  [header; ["A"; "1.1.1.1"; "0.0000"; "2024-03-09 14:05:07"]]%string /\
  fst (ping_ips false_env [hostA] "reports/report.csv" 5 initial_state) = Val false.
Proof.
  split; [intros k; reflexivity|]. split; vm_compute; reflexivity.
Qed.

(** C4: the code departs from the claim where an attempt is answered with
    the error value of the library.  With one such answer and one delay of
    half a second, the average written is 0.2500, the failure counted as a
    delay of 0, not the 0.5000 of the one successful attempt; with nothing
    but such answers the row shows 0.0000 and not "Unreachable". *)
Lemma C4_error_replies_are_averaged :
  map carries_delay (attempts mixed_env 0 (ip hostA) 0 2) = [false; true] /\
  report mixed_env [hostA] "reports/report.csv" 2 initial_state =
  [header; ["A"; "1.1.1.1"; "0.2500"; "2024-03-09 14:05:07"]]%string /\
  report false_env [hostA] "reports/report.csv" 2 initial_state =
  [header; ["A"; "1.1.1.1"; "0.0000"; "2024-03-09 14:05:07"]]%string.
Proof.
  split; [reflexivity|]. split; vm_compute; reflexivity.
Qed.

(** ** The order of the calls and of the readings *)

Lemma in_echo_from env n ips : forall i0 i k a,
  In (i, k, a) (echo_from env n i0 ips) ->
  exists j entry,
    i = i0 + j /\ nth_error ips j = Some entry /\ a = ip entry /\
    k < List.length (attempts env i (ip entry) 0 n).
Proof.
  induction ips as [|e rest IH]; intros i0 i k a Hin; [destruct Hin|].
  simpl in Hin. apply in_app_or in Hin as [Hin|Hin].
  - unfold host_echo in Hin. apply in_map_iff in Hin as (k' & Heq & Hk).
    injection Heq as <- <- <-. apply in_seq in Hk.
    exists 0, e. rewrite Nat.add_0_r. repeat split; [lia].
  - apply IH in Hin as (j & entry & -> & Hj & -> & Hk).
    exists (S j), entry. rewrite Nat.add_succ_r. repeat split; assumption.
Qed.

Lemma echo_from_app env n ips1 ips2 : forall i,
  echo_from env n i (ips1 ++ ips2) =
  echo_from env n i ips1 ++ echo_from env n (i + List.length ips1) ips2.
Proof.
  induction ips1 as [|e rest IH]; intros i; simpl.
  - rewrite Nat.add_0_r. reflexivity.
  - rewrite IH, Nat.add_succ_r, app_assoc. reflexivity.
Qed.

Lemma echo_from_firstn env n ips m i :
  firstn (List.length (echo_from env n i (firstn m ips))) (echo_from env n i ips) =
  echo_from env n i (firstn m ips).
Proof.
  rewrite <- (firstn_skipn m ips) at 2.
  rewrite echo_from_app, firstn_app, Nat.sub_diag, firstn_all. simpl.
  apply app_nil_r.
Qed.

Lemma nth_error_firstn_succ {A : Type} (l : list A) : forall i,
  nth_error (firstn (S i) l) i = nth_error l i.
Proof.
  induction l as [|x l IH]; intros i; [destruct i; reflexivity|].
  destruct i as [|i]; [reflexivity|]. simpl. apply IH.
Qed.

Lemma nth_error_reads_from env n ips : forall i0 c j entry,
  nth_error ips j = Some entry ->
  nth_error (reads_from env n i0 c ips) j =
  Some (c + List.length (echo_from env n i0 (firstn (S j) ips))).
Proof.
  induction ips as [|e rest IH]; intros i0 c j entry Hj.
  - destruct j; discriminate.
  - destruct j as [|j]; simpl in Hj.
    + simpl. unfold host_echo.
      rewrite app_nil_r, length_map, length_seq. reflexivity.
    + change (firstn (S (S j)) (e :: rest)) with (e :: firstn (S j) rest).
      cbn [reads_from nth_error echo_from].
      rewrite (IH (S i0) _ j entry Hj), length_app. unfold host_echo.
      rewrite length_map, length_seq. f_equal. lia.
Qed.

(** C5, as stated, fails: the clock is read once per host, after the host
    was probed, so two rows of one cycle can carry different times. *)
Lemma C5_counterexample :
  nth 3 (nth 1 (report scenario1_env [hostA; hostB] "reports/report.csv" 5
                       initial_state) [])
        EmptyString = "2024-03-09 14:05:07"%string /\
  nth 3 (nth 2 (report scenario1_env [hostA; hostB] "reports/report.csv" 5
                       initial_state) [])
        EmptyString = "2024-03-09 14:06:07"%string /\
  nth 3 (nth 1 (report scenario1_env [hostA; hostB] "reports/report.csv" 5
                       initial_state) [])
        EmptyString <>
  nth 3 (nth 2 (report scenario1_env [hostA; hostB] "reports/report.csv" 5
                       initial_state) [])
        EmptyString.
Proof.
  split; [|split]; vm_compute; [reflexivity|reflexivity|discriminate].
Qed.

(** C5, amended: for an output path with a directory part, the time in the
    row of the host at position [i] is the reading of the clock number [i]
    since [ping_ips] was entered, and that reading is taken after the host
    was probed and before the next one is: the calls of [ping] made before
    it ([before]) are those of the run up to this host, they hold every call
    for this host and none for a later one. *)
Theorem C5_time_of_row env ips out n s i entry :
  dirname out <> EmptyString ->
  nth_error ips i = Some entry ->
  let before := pinged env (firstn (S i) ips) out n s in
  (exists c,
     nth_error (report env ips out n s) (S i) =
     Some [name entry; ip entry; c; strftime (env_clock env (ticks s + i))]) /\
  nth_error (readings env ips out n s) i =
  Some (List.length (echo s) + List.length before) /\
  firstn (List.length before) (pinged env ips out n s) = before /\
  calls_to i before = calls_to i (pinged env ips out n s) /\
  (forall j k a, In (j, k, a) before -> j <= i).
Proof.
  intros Hd Hi before. subst before. rewrite !pinged_run by exact Hd.
  split; [|split; [|split; [|split]]].
  - eexists. rewrite report_run by exact Hd. simpl.
    rewrite nth_error_rows_from, Hi. reflexivity.
  - rewrite readings_run by exact Hd. apply (nth_error_reads_from _ _ _ _ _ _ _ Hi).
  - apply echo_from_firstn.
  - assert (Hi' : nth_error (firstn (S i) ips) i = Some entry)
      by (rewrite nth_error_firstn_succ; exact Hi).
    pose proof (calls_to_echo_from env n _ 0 i entry Hi') as H1.
    pose proof (calls_to_echo_from env n _ 0 i entry Hi) as H2.
    change (0 + i) with i in H1, H2. rewrite H1, H2. reflexivity.
  - intros j k a Hin. apply in_echo_from in Hin as (j' & e' & -> & Hj & _).
    assert (Hlt : j' < List.length (firstn (S i) ips))
      by (apply nth_error_Some; rewrite Hj; discriminate).
    rewrite length_firstn in Hlt. simpl. lia.
Qed.

Lemma C5_time_of_row_witness :
  dirname "reports/report.csv" <> EmptyString /\
  nth_error [hostA; hostB] 1 = Some hostB /\
  (exists c,
     nth_error (report scenario1_env [hostA; hostB] "reports/report.csv" 5
                       initial_state) 2 =
     Some [name hostB; ip hostB; c;
           strftime (env_clock scenario1_env (ticks initial_state + 1))]) /\
  nth_error (readings scenario1_env [hostA; hostB] "reports/report.csv" 5
                      initial_state) 1 = Some 10.
Proof.
  split; [discriminate|]. split; [reflexivity|].
  destruct (C5_time_of_row scenario1_env [hostA; hostB] "reports/report.csv" 5
              initial_state 1 hostB) as (H1 & H2 & _);
    [discriminate|reflexivity|].
  split; [exact H1|exact H2].
Defined.

Lemma names_of_rows_from env n ips : forall i t,
  map (firstn 2) (rows_from env n i t ips) =
  map (fun entry => [name entry; ip entry]) ips.
Proof.
  induction ips as [|entry rest IH]; intros i t; simpl; [reflexivity|].
  rewrite IH. reflexivity.
Qed.

(** C6: for an output path with a directory part, whatever the calls of
    [ping] return or raise, [ping_ips] returns normally and the report is
    the header followed by one row per entry of the list, in the order of
    the list, each starting with the name and the address of its entry. *)
Theorem C6_one_row_per_entry env ips out n s :
  dirname out <> EmptyString ->
  (exists b, fst (ping_ips env ips out n s) = Val b) /\
  hd_error (report env ips out n s) = Some header /\
  List.length (tl (report env ips out n s)) = List.length ips /\
  map (firstn 2) (tl (report env ips out n s)) =
  map (fun entry => [name entry; ip entry]) ips.
Proof.
  intros Hd. rewrite report_run by exact Hd. simpl.
  split; [eexists; apply returned_run; exact Hd|].
  split; [reflexivity|].
  split; [apply length_rows_from|apply names_of_rows_from].
Qed.

Lemma C6_one_row_per_entry_witness :
  dirname "reports/report.csv" <> EmptyString /\
  (exists b, fst (ping_ips raising_env [hostA; hostB] "reports/report.csv" 5
                           initial_state) = Val b) /\
  hd_error (report raising_env [hostA; hostB] "reports/report.csv" 5 initial_state)
  = Some header /\
  List.length (tl (report raising_env [hostA; hostB] "reports/report.csv" 5
                          initial_state)) = List.length [hostA; hostB] /\
  map (firstn 2) (tl (report raising_env [hostA; hostB] "reports/report.csv" 5
                             initial_state)) =
  map (fun entry => [name entry; ip entry]) [hostA; hostB].
Proof.
  split; [discriminate|].
  apply (C6_one_row_per_entry raising_env [hostA; hostB] "reports/report.csv" 5
           initial_state).
  discriminate.
Defined.

(** C7: [generate_report] hands exactly one message to the SMTP session.
    When [ping_ips] returned [True] it is the error message (error subject
    and body, error recipient), otherwise the normal one (normal subject and
    body, report recipient); in both cases the attachment is the report file
    that [ping_ips] has just written, under its base name. *)
Theorem C7_recipient_by_flag env cfg s :
  let path := report_path (env_clock env (ticks s)) in
  let att := Some (basename path, report env (ip_addresses cfg) path 5 (tick s)) in
  exists b,
    fst (ping_ips env (ip_addresses cfg) path 5 (tick s)) = Val b /\
    fst (generate_report env cfg s) = Val tt /\
    outbox (snd (generate_report env cfg s)) =
    outbox s ++ accepted env (if b then error_notice cfg att
                              else normal_notice cfg att).
Proof.
  intros path att. exists (all_silent env 5 0 (ip_addresses cfg)).
  split; [apply returned_run, dirname_report_path|].
  destruct (generate_report_run env cfg s) as (H1 & _ & H3).
  split; [exact H1|exact H3].
Qed.

(** C8: for an output path with a directory part, the rows of the other
    hosts, and the calls of [ping] made for them, do not depend on what the
    network does for the host at position [i]: let its calls return or raise
    in any way ([f]), every other row of the report is the same, and a host
    whose own calls do not raise is still called [ping_count] times. *)
Theorem C8_other_hosts_unaffected env f ips out n s i j entry :
  dirname out <> EmptyString ->
  i < List.length ips ->
  j <> i ->
  nth_error ips j = Some entry ->
  nth_error (report (with_host env i f) ips out n s) (S j) =
  nth_error (report env ips out n s) (S j) /\
  calls_to j (pinged (with_host env i f) ips out n s) =
  calls_to j (pinged env ips out n s) /\
  ((forall k, k < n -> exists v, env_ping env j k (ip entry) = Returns v) ->
   calls_to j (pinged (with_host env i f) ips out n s) = n).
Proof.
  intros Hd _ Hj Hentry.
  pose proof (calls_to_echo_from env n ips 0 j entry Hentry) as Hc.
  pose proof (calls_to_echo_from (with_host env i f) n ips 0 j entry Hentry) as Hc'.
  simpl in Hc, Hc'. rewrite attempts_with_host in Hc' by assumption.
  rewrite !pinged_run, !report_run by exact Hd.
  split; [|split].
  - simpl. rewrite !nth_error_rows_from, Hentry. simpl.
    rewrite host_row_with_host by assumption. reflexivity.
  - congruence.
  - intros Hall. rewrite Hc', attempts_all_return, length_map, length_seq; auto.
    intros k Hk. apply Hall. lia.
Qed.

Lemma C8_other_hosts_unaffected_witness :
  dirname "reports/report.csv" <> EmptyString /\
  0 < List.length [hostA; hostB] /\ 1 <> 0 /\
  nth_error [hostA; hostB] 1 = Some hostB /\
  (nth_error (report (with_host silent_env 0 (fun _ _ => Raises "Network is unreachable"))
                     [hostA; hostB] "reports/report.csv" 5 initial_state) 2 =
   nth_error (report silent_env [hostA; hostB] "reports/report.csv" 5 initial_state) 2) /\
  calls_to 1 (pinged (with_host silent_env 0 (fun _ _ => Raises "Network is unreachable"))
                     [hostA; hostB] "reports/report.csv" 5 initial_state) = 5.
Proof.
  split; [discriminate|]. split; [simpl; lia|]. split; [discriminate|].
  split; [reflexivity|].
  destruct (C8_other_hosts_unaffected silent_env
              (fun _ _ => Raises "Network is unreachable")
              [hostA; hostB] "reports/report.csv" 5 initial_state 0 1 hostB)
    as (H1 & _ & H3); [discriminate|simpl; lia|discriminate|reflexivity|].
  split; [exact H1|]. apply H3. intros k _. eexists. reflexivity.
Defined.



Example false_counts_as_zero :
  report false_env [hostA] "reports/report.csv" 1 initial_state =
  [header; ["A"; "1.1.1.1"; "0.0000"; "2024-03-09 14:05:07"]]%string.
Proof. vm_compute. reflexivity. Qed.

Lemma all_silent_rows env n ips : forall i t,
  (all_silent env n i ips = true <->
   Forall (fun row => nth_error row 2 = Some "Unreachable"%string)
          (rows_from env n i t ips)) /\
  (all_silent env n i ips = false <->
   Exists (fun row => exists x, nth_error row 2 = Some (format_4f x))
          (rows_from env n i t ips)).
Proof.
  induction ips as [|entry rest IH]; intros i t; simpl.
  - split; split; auto; try discriminate. intros H. inversion H.
  - destruct (IH (S i) (S t)) as [IHa IHe].
    destruct (successes (attempts env i (ip entry) 0 n)) as [|v lat] eqn:E.
    + simpl. split.
      * rewrite IHa. split.
        -- intros H. constructor; [|exact H].
           unfold host_row. rewrite E. reflexivity.
        -- intros H. inversion H; assumption.
      * rewrite IHe. split.
        -- intros H. apply Exists_cons_tl. exact H.
        -- intros H. inversion H as [r l [q Hq]|r l Ht]; subst; [|exact Ht].
           exfalso. unfold host_row in Hq. rewrite E in Hq. simpl in Hq.
           injection Hq as Hq. symmetry in Hq.
           exact (format_4f_not_Unreachable _ Hq).
    + simpl. split.
      * split; [discriminate|]. intros H. exfalso.
        inversion H as [|r l Hr _]; subst. unfold host_row in Hr.
        rewrite E in Hr. simpl in Hr. injection Hr as Hr.
        exact (format_4f_not_Unreachable _ Hr).
      * split; [|reflexivity]. intros _. apply Exists_cons_hd.
        unfold host_row. rewrite E. simpl. eexists. reflexivity.
Qed.

(** C10: for an output path with a directory part, the boolean returned by
    [ping_ips] agrees with the report it wrote: it is [True] exactly when
    every row below the header reads "Unreachable" in the third column, and
    [False] exactly when some row carries a number there. *)
Theorem C10_flag_matches_report env ips out n s :
  dirname out <> EmptyString ->
  exists b,
    fst (ping_ips env ips out n s) = Val b /\
    (b = true <->
     Forall (fun row => nth_error row 2 = Some "Unreachable"%string)
            (tl (report env ips out n s))) /\
    (b = false <->
     Exists (fun row => exists x, nth_error row 2 = Some (format_4f x))
            (tl (report env ips out n s))).
Proof.
  intros Hd. exists (all_silent env n 0 ips).
  split; [apply returned_run; exact Hd|].
  rewrite report_run by exact Hd. simpl. apply all_silent_rows.
Qed.

Lemma C10_flag_matches_report_witness :
  dirname "reports/report.csv" <> EmptyString /\
  exists b,
    fst (ping_ips scenario1_env [hostA; hostB] "reports/report.csv" 5 initial_state)
    = Val b /\
    (b = true <->
     Forall (fun row => nth_error row 2 = Some "Unreachable"%string)
            (tl (report scenario1_env [hostA; hostB] "reports/report.csv" 5
                        initial_state))) /\
    (b = false <->
     Exists (fun row => exists x, nth_error row 2 = Some (format_4f x))
            (tl (report scenario1_env [hostA; hostB] "reports/report.csv" 5
                        initial_state))).
Proof.
  split; [discriminate|].
  apply (C10_flag_matches_report scenario1_env [hostA; hostB] "reports/report.csv"
           5 initial_state).
  discriminate.
Defined.

(** * Further properties of the code *)

(** ** [send_email] *)

Lemma send_email_run_no_attachment env cfg subject body recipient s :
  let msg := mkEmail subject (EMAIL_ADDRESS cfg) recipient body None in
  send_email env cfg subject body EmptyString recipient s =
  (Val tt,
   match env_smtp env msg with
   | None =>
       add_log (INFO, ("Email sent to " ++ recipient)%string) (add_outbox msg s)
   | Some e =>
       add_log (ERROR, ("Failed to send email to " ++ recipient ++ ": " ++ e)%string) s
   end).
Proof.
  intros msg. unfold send_email.
  unfold bind at 1. unfold ret at 1.
  unfold try_except, bind, smtp_session. fold msg.
  destruct (env_smtp env msg); reflexivity.
Qed.

Lemma send_email_run_any env cfg subject body path recipient s rows :
  path = EmptyString \/ fs s path = Some rows ->
  send_email env cfg subject body path recipient s =
  (Val tt,
   match env_smtp env (message_of cfg subject body path recipient rows) with
   | None =>
       add_log (INFO, ("Email sent to " ++ recipient)%string)
               (add_outbox (message_of cfg subject body path recipient rows) s)
   | Some e =>
       add_log (ERROR, ("Failed to send email to " ++ recipient ++ ": " ++ e)%string) s
   end).
Proof.
  intros H. destruct path as [|c p].
  - apply send_email_run_no_attachment.
  - destruct H as [H|H]; [discriminate|].
    apply (send_email_run env cfg subject body (String c p) recipient s rows);
      [discriminate|exact H].
Qed.

(** X1: an exception of the SMTP session (connection, TLS, login or
    sending) does not leave [send_email]: the function returns normally,
    no message is delivered, the files are untouched and exactly one record
    is logged, the error with the recipient and the text of the exception. *)
Theorem send_email_smtp_failure_is_logged
    env cfg subject body path recipient s rows e :
  path = EmptyString \/ fs s path = Some rows ->
  env_smtp env (message_of cfg subject body path recipient rows) = Some e ->
  let r := send_email env cfg subject body path recipient s in
  fst r = Val tt /\
  outbox (snd r) = outbox s /\
  fs (snd r) = fs s /\
  log (snd r) =
  log s ++ [(ERROR, ("Failed to send email to " ++ recipient ++ ": " ++ e)%string)].
Proof.
  intros H He. cbv zeta. rewrite (send_email_run_any _ _ _ _ _ _ _ _ H), He.
  repeat split.
Qed.

Lemma send_email_smtp_failure_is_logged_witness :
  ("old.csv"%string = EmptyString \/
   fs state_with_file "old.csv" = Some [["kept"%string]]) /\
  env_smtp smtp_down_env
    (message_of (sample_cfg []) "s" "b" "old.csv" "ops@example.org" [["kept"%string]])
  = Some "Connection refused"%string /\
  outbox (snd (send_email smtp_down_env (sample_cfg []) "s" "b" "old.csv"
                          "ops@example.org" state_with_file)) =
  outbox state_with_file.
Proof.
  split; [right; reflexivity|]. split; [reflexivity|].
  apply (send_email_smtp_failure_is_logged smtp_down_env (sample_cfg []) "s" "b"
           "old.csv" "ops@example.org" state_with_file [["kept"%string]]
           "Connection refused");
    [right; reflexivity|reflexivity].
Defined.

(** X2: the attachment is read before the [try]: when [attachment_path] is
    not empty and names no file, [send_email] raises, and it does so before
    any SMTP session: nothing is sent, nothing is logged, the state is as it
    was. *)
Theorem send_email_missing_attachment_raises
    env cfg subject body path recipient s :
  path <> EmptyString ->
  fs s path = None ->
  exists e, send_email env cfg subject body path recipient s = (Exn e, s).
Proof.
  intros Hp Hfs. destruct path as [|c p]; [congruence|].
  eexists. unfold send_email. unfold bind at 1. unfold bind at 1, read_rb.
  rewrite Hfs. reflexivity.
Qed.

Lemma send_email_missing_attachment_raises_witness :
  "gone.csv"%string <> EmptyString /\
  fs initial_state "gone.csv" = None /\
  exists e,
    send_email silent_env (sample_cfg []) "s" "b" "gone.csv" "ops@example.org"
               initial_state = (Exn e, initial_state).
Proof.
  split; [discriminate|]. split; [reflexivity|].
  apply (send_email_missing_attachment_raises silent_env (sample_cfg []) "s" "b"
           "gone.csv" "ops@example.org" initial_state);
    [discriminate|reflexivity].
Defined.

(** ** What [ping_ips] leaves alone *)

Lemma update_other out rows f p :
  p <> out -> update out rows f p = f p.
Proof.
  intros H. unfold update. destruct (String.eqb_spec p out); [contradiction|].
  reflexivity.
Qed.

Lemma for_entries_other_files env out n ips p : forall i s,
  p <> out ->
  fs (snd (for_entries env out n i ips s)) p = fs s p.
Proof.
  induction ips as [|entry rest IH]; intros i s Hp; [reflexivity|].
  cbn [for_entries]. unfold bind. rewrite host_body_run.
  rewrite IH by assumption. cbn [fs]. apply update_other. exact Hp.
Qed.

Lemma ping_ips_other_files env ips out n s p :
  p <> out ->
  fs (snd (ping_ips env ips out n s)) p = fs s p.
Proof.
  intros Hp. destruct (dirname_cases out) as [Hd|(c & d & Hd)].
  - rewrite ping_ips_bare by exact Hd. reflexivity.
  - unfold ping_ips. unfold bind at 1, makedirs. rewrite Hd.
    unfold open_w, writerow, gets, bind, modify.
    match goal with
    | |- context [for_entries env out n 0 ips ?x] =>
        pose proof (for_entries_other_files env out n ips p 0 x Hp) as H;
        destruct (for_entries env out n 0 ips x) as [[u|e] s2]
    end; cbn [snd] in *; rewrite H; cbn [fs set_fs set_all_unreachable];
      rewrite !update_other by assumption; reflexivity.
Qed.

(** X4: for an output path with a directory part, [ping_ips] changes the
    content of no regular file but [output_file] and the log file: every
    other one is as it was, the records logged before are kept at the head
    of the log, no message is sent, and the clock is read exactly once per
    entry of the list. *)
Theorem ping_ips_frame env ips out n s :
  dirname out <> EmptyString ->
  (forall p, p <> out -> p <> LOG_FILE ->
     fs (snd (ping_ips env ips out n s)) p = fs s p) /\
  firstn (List.length (log s)) (log (snd (ping_ips env ips out n s))) = log s /\
  outbox (snd (ping_ips env ips out n s)) = outbox s /\
  ticks (snd (ping_ips env ips out n s)) = ticks s + List.length ips.
Proof.
  intros Hd.
  destruct (ping_ips_run env ips out n s Hd) as (_ & _ & Hl & _ & Ht & _ & Ho).
  cbv zeta in *. split; [intros p Hp _; apply ping_ips_other_files; exact Hp|].
  split; [|split; [exact Ho|exact Ht]].
  rewrite Hl, firstn_app, Nat.sub_diag, firstn_all. simpl. apply app_nil_r.
Qed.

Lemma ping_ips_frame_witness :
  dirname "reports/report.csv" <> EmptyString /\
  ticks (snd (ping_ips silent_env [hostA; hostB] "reports/report.csv" 5
                       state_with_file)) =
  ticks state_with_file + List.length [hostA; hostB].
Proof.
  split; [discriminate|].
  apply (ping_ips_frame silent_env [hostA; hostB] "reports/report.csv" 5
           state_with_file).
  discriminate.
Defined.



(** ** The calls of [ping] *)

Lemma length_echo_from env n ips : forall i0,
  List.length (echo_from env n i0 ips) <= List.length ips * n.
Proof.
  induction ips as [|e rest IH]; intros i0; simpl; [lia|].
  rewrite length_app. unfold host_echo. rewrite length_map, length_seq.
  pose proof (length_attempts_le env i0 (ip e) n 0).
  specialize (IH (S i0)). lia.
Qed.

Lemma NoDup_host_echo env n i entry : NoDup (host_echo env n i entry).
Proof.
  unfold host_echo.
  generalize (seq_NoDup (List.length (attempts env i (ip entry) 0 n)) 0).
  generalize (seq 0 (List.length (attempts env i (ip entry) 0 n))) as l.
  induction l as [|k l IH]; intros H; simpl; [constructor|].
  inversion H as [|k' l' Hk Hl]; subst. constructor; [|apply IH; exact Hl].
  intros Hin. apply in_map_iff in Hin as (k' & Heq & Hin).
  injection Heq as ->. contradiction.
Qed.

Lemma NoDup_echo_from env n ips : forall i0,
  NoDup (echo_from env n i0 ips).
Proof.
  induction ips as [|e rest IH]; intros i0; simpl; [constructor|].
  apply NoDup_app.
  - apply NoDup_host_echo.
  - apply IH.
  - intros [[i k] a] H1 H2. unfold host_echo in H1.
    apply in_map_iff in H1 as (k' & Heq & _). injection Heq as <- _ _.
    apply in_echo_from in H2 as (j & _ & Hj & _). lia.
Qed.

(** X6: [ping] is only ever called for an entry of the list, with the
    address of that entry, in an iteration below [ping_count], and at most
    once for each host and iteration; in all, at most
    [len(ips) * ping_count] calls are made. *)
Theorem ping_calls_are_bounded env ips out n s :
  (forall i k a, In (i, k, a) (pinged env ips out n s) ->
     k < n /\ exists entry, nth_error ips i = Some entry /\ a = ip entry) /\
  NoDup (pinged env ips out n s) /\
  List.length (pinged env ips out n s) <= List.length ips * n.
Proof.
  destruct (dirname_cases out) as [Hd|(c & d & Hd)].
  - rewrite pinged_bare by exact Hd.
    split; [intros i k a []|]. split; [constructor|simpl; lia].
  - rewrite pinged_run by (rewrite Hd; discriminate). split; [|split].
    + intros i k a Hin.
      apply in_echo_from in Hin as (j & entry & -> & Hj & -> & Hk).
      pose proof (length_attempts_le env (0 + j) (ip entry) n 0).
      split; [lia|]. exists entry. auto.
    + apply NoDup_echo_from.
    + apply length_echo_from.
Qed.

Lemma echo_from_zero env ips : forall i0, echo_from env 0 i0 ips = [].
Proof.
  induction ips as [|e rest IH]; intros i0; simpl; [reflexivity|apply IH].
Qed.

(** X7: with [ping_count = 0] and an output path with a directory part, no
    call of [ping] is made; every entry still gets its row, which reads
    "Unreachable", and [ping_ips] returns [True]. *)
Theorem zero_attempts_all_unreachable env ips out s :
  dirname out <> EmptyString ->
  pinged env ips out 0 s = [] /\
  fst (ping_ips env ips out 0 s) = Val true /\
  List.length (tl (report env ips out 0 s)) = List.length ips /\
  Forall (fun row => nth_error row 2 = Some "Unreachable"%string)
         (tl (report env ips out 0 s)).
Proof.
  intros Hd.
  assert (Hs : all_silent env 0 0 ips = true).
  { apply all_silent_spec. intros j entry _. reflexivity. }
  rewrite pinged_run, returned_run, report_run by exact Hd.
  split; [|split; [|split]].
  - apply echo_from_zero.
  - rewrite Hs. reflexivity.
  - simpl. apply length_rows_from.
  - simpl. apply all_silent_rows. exact Hs.
Qed.

Lemma zero_attempts_all_unreachable_witness :
  dirname "reports/report.csv" <> EmptyString /\
  pinged scenario1_env [hostA; hostB] "reports/report.csv" 0 initial_state = [] /\
  fst (ping_ips scenario1_env [hostA; hostB] "reports/report.csv" 0 initial_state)
  = Val true.
Proof.
  split; [discriminate|].
  destruct (zero_attempts_all_unreachable scenario1_env [hostA; hostB]
              "reports/report.csv" initial_state) as (H1 & H2 & _);
    [discriminate|].
  split; [exact H1|exact H2].
Defined.

(** ** Lists of hosts, composed *)

Lemma rows_from_app env n ips1 ips2 : forall i t,
  rows_from env n i t (ips1 ++ ips2) =
  rows_from env n i t ips1 ++
  rows_from env n (i + List.length ips1) (t + List.length ips1) ips2.
Proof.
  induction ips1 as [|e rest IH]; intros i t; simpl.
  - rewrite !Nat.add_0_r. reflexivity.
  - rewrite IH, !Nat.add_succ_r. reflexivity.
Qed.

Lemma all_silent_app env n ips1 ips2 : forall i,
  all_silent env n i (ips1 ++ ips2) =
  all_silent env n i ips1 && all_silent env n (i + List.length ips1) ips2.
Proof.
  induction ips1 as [|e rest IH]; intros i; simpl.
  - rewrite Nat.add_0_r. reflexivity.
  - rewrite IH, Nat.add_succ_r, andb_assoc. reflexivity.
Qed.

(** X8: for an output path with a directory part, entries added at the
    end of the list change nothing for the entries before them: the report
    of the longer list starts with the report of the shorter one, and if the
    longer list is all unreachable so is the shorter one. *)
Theorem report_of_longer_list env ips1 ips2 out n s :
  dirname out <> EmptyString ->
  firstn (S (List.length ips1)) (report env (ips1 ++ ips2) out n s) =
  report env ips1 out n s /\
  (fst (ping_ips env (ips1 ++ ips2) out n s) = Val true ->
   fst (ping_ips env ips1 out n s) = Val true).
Proof.
  intros Hd.
  rewrite !report_run, !returned_run, rows_from_app, all_silent_app by exact Hd.
  split.
  - cbn [firstn]. f_equal.
    rewrite firstn_app, length_rows_from, Nat.sub_diag, firstn_all2
      by (rewrite length_rows_from; lia).
    simpl. apply app_nil_r.
  - intros H. injection H as H. apply andb_true_iff in H as [H _].
    rewrite H. reflexivity.
Qed.

Lemma report_of_longer_list_witness :
  dirname "reports/report.csv" <> EmptyString /\
  firstn (S (List.length [hostA]))
         (report scenario1_env ([hostA] ++ [hostB]) "reports/report.csv" 5
                 initial_state) =
  report scenario1_env [hostA] "reports/report.csv" 5 initial_state.
Proof.
  split; [discriminate|].
  apply (report_of_longer_list scenario1_env [hostA] [hostB] "reports/report.csv"
           5 initial_state).
  discriminate.
Defined.

(** ** The log of [ping_ips] *)

Lemma record_of_host_row env n i t entry :
  record_of_row (host_row env n i t entry) =
  summary_record env entry (successes (attempts env i (ip entry) 0 n))
                 (strftime (env_clock env t)).
Proof.
  unfold host_row, record_of_row, summary_record.
  destruct (successes (attempts env i (ip entry) 0 n)) as [|v lat] eqn:E.
  - reflexivity.
  - destruct (String.eqb_spec (cell env (v :: lat)) "Unreachable") as [H|H].
    + apply cell_Unreachable in H. discriminate.
    + reflexivity.
Qed.

Lemma summaries_of_log_from env n ips : forall i t,
  filter (fun r => negb (is_ERROR r)) (log_from env n i t ips) =
  map record_of_row (rows_from env n i t ips).
Proof.
  induction ips as [|entry rest IH]; intros i t; [reflexivity|].
  cbn [log_from rows_from map].
  rewrite filter_app, IH, record_of_host_row. unfold host_log.
  rewrite filter_app.
  assert (H1 : filter (fun r => negb (is_ERROR r))
                 match raised (attempts env i (ip entry) 0 n) with
                 | Some e => [error_record entry e]
                 | None => []
                 end = []).
  { destruct (raised _); reflexivity. }
  rewrite H1. cbn [app filter]. unfold summary_record at 1.
  destruct (successes (attempts env i (ip entry) 0 n)); reflexivity.
Qed.

Lemma errors_of_log_from env n ips : forall i t,
  List.length (filter is_ERROR (log_from env n i t ips)) <= List.length ips.
Proof.
  induction ips as [|entry rest IH]; intros i t; simpl; [lia|].
  rewrite filter_app, length_app. specialize (IH (S i) (S t)).
  unfold host_log. rewrite filter_app, length_app.
  assert (H1 : List.length (filter is_ERROR
                 match raised (attempts env i (ip entry) 0 n) with
                 | Some e => [error_record entry e]
                 | None => []
                 end) <= 1).
  { destruct (raised _); simpl; lia. }
  assert (H2 : filter is_ERROR
                 [summary_record env entry
                    (successes (attempts env i (ip entry) 0 n))
                    (strftime (env_clock env t))] = []).
  { unfold summary_record.
    destruct (successes (attempts env i (ip entry) 0 n)); reflexivity. }
  rewrite H2. simpl. lia.
Qed.

(** X10: for an output path with a directory part, the log of a run
    agrees with the report: apart from the error records, [ping_ips] logs
    exactly one record per row, in the order of the rows, a warning that the
    host is unreachable for a row that reads "Unreachable", otherwise an
    info record that carries the very average written in the row, and in
    both the time written in the row; at most one error record is logged per
    entry. *)
Theorem log_agrees_with_report env ips out n s :
  dirname out <> EmptyString ->
  filter (fun r => negb (is_ERROR r)) (logged env ips out n s) =
  map record_of_row (tl (report env ips out n s)) /\
  List.length (filter is_ERROR (logged env ips out n s)) <= List.length ips.
Proof.
  intros Hd. rewrite logged_run, report_run by exact Hd. simpl.
  split; [apply summaries_of_log_from|apply errors_of_log_from].
Qed.

Lemma log_agrees_with_report_witness :
  dirname "reports/report.csv" <> EmptyString /\
  filter (fun r => negb (is_ERROR r))
         (logged raising_env [hostA; hostB] "reports/report.csv" 5 initial_state) =
  map record_of_row
      (tl (report raising_env [hostA; hostB] "reports/report.csv" 5 initial_state)).
Proof.
  split; [discriminate|].
  apply (log_agrees_with_report raising_env [hostA; hostB] "reports/report.csv" 5
           initial_state).
  discriminate.
Defined.

(** ** No network at all *)

Lemma attempts_first_raises env i ipa n e :
  env_ping env i 0 ipa = Raises e ->
  attempts env i ipa 0 (S n) = [Raises e].
Proof.
  intros H. simpl. rewrite H. reflexivity.
Qed.

Lemma errors_of_log_from_any_time env n ips : forall i t t',
  List.length (filter is_ERROR (log_from env n i t ips)) =
  List.length (filter is_ERROR (log_from env n i t' ips)).
Proof.
  induction ips as [|en r IH]; intros i t t'; simpl; [reflexivity|].
  rewrite !filter_app, !length_app, (IH (S i) (S t) (S t')).
  f_equal. unfold host_log, summary_record.
  destruct (raised _); destruct (successes _); reflexivity.
Qed.

Lemma echo_from_first_raises env n ips : forall i0,
  (forall j entry, nth_error ips j = Some entry ->
     exists e, env_ping env (i0 + j) 0 (ip entry) = Raises e) ->
  List.length (echo_from env (S n) i0 ips) = List.length ips /\
  List.length (filter is_ERROR (log_from env (S n) i0 0 ips)) = List.length ips.
Proof.
  induction ips as [|entry rest IH]; intros i0 H; [split; reflexivity|].
  destruct (H 0 entry eq_refl) as [e He]. rewrite Nat.add_0_r in He.
  assert (Hr : forall j en, nth_error rest j = Some en ->
                 exists e', env_ping env (S i0 + j) 0 (ip en) = Raises e').
  { intros j en Hj. specialize (H (S j) en Hj).
    rewrite Nat.add_succ_r in H. exact H. }
  destruct (IH (S i0) Hr) as [IH1 IH2]. split.
  - simpl echo_from. rewrite length_app, IH1. unfold host_echo.
    rewrite length_map, length_seq, (attempts_first_raises _ _ _ _ _ He).
    reflexivity.
  - simpl log_from. rewrite filter_app, length_app. unfold host_log.
    rewrite (attempts_first_raises _ _ _ _ _ He). simpl.
    f_equal.
    rewrite (errors_of_log_from_any_time env (S n) rest (S i0) 1 0). exact IH2.
Qed.

(** X12: when the first call of [ping] raises for every host (no network,
    no permission to open the socket), [ping_ips], given an output path with
    a directory part, still returns normally: it makes exactly one call and
    logs exactly one error per host, every row reads "Unreachable" and the
    value returned is [True]. *)
Theorem offline_run env ips out n s :
  dirname out <> EmptyString ->
  0 < n ->
  (forall i entry, nth_error ips i = Some entry ->
     exists e, env_ping env i 0 (ip entry) = Raises e) ->
  fst (ping_ips env ips out n s) = Val true /\
  List.length (pinged env ips out n s) = List.length ips /\
  List.length (filter is_ERROR (logged env ips out n s)) = List.length ips /\
  Forall (fun row => nth_error row 2 = Some "Unreachable"%string)
         (tl (report env ips out n s)).
Proof.
  intros Hd Hn H. destruct n as [|n]; [lia|].
  assert (Hs : all_silent env (S n) 0 ips = true).
  { apply all_silent_spec. intros j entry Hj. destruct (H j entry Hj) as [e He].
    simpl Nat.add. rewrite (attempts_first_raises _ _ _ _ _ He). reflexivity. }
  destruct (echo_from_first_raises env n ips 0 H) as [H1 H2].
  rewrite returned_run, pinged_run, logged_run, report_run, Hs by exact Hd.
  split; [reflexivity|]. split; [exact H1|]. split.
  - rewrite (errors_of_log_from_any_time env (S n) ips 0 (ticks s) 0). exact H2.
  - simpl. apply all_silent_rows. exact Hs.
Qed.

Lemma offline_run_witness :
  dirname "reports/report.csv" <> EmptyString /\
  0 < 5 /\
  (forall i entry, nth_error [hostA; hostB] i = Some entry ->
     exists e, env_ping offline_env i 0 (ip entry) = Raises e) /\
  fst (ping_ips offline_env [hostA; hostB] "reports/report.csv" 5 initial_state)
  = Val true /\
  List.length (pinged offline_env [hostA; hostB] "reports/report.csv" 5
                      initial_state) = List.length [hostA; hostB].
Proof.
  assert (H : forall i entry, nth_error [hostA; hostB] i = Some entry ->
                exists e, env_ping offline_env i 0 (ip entry) = Raises e).
  { intros i entry _. eexists. reflexivity. }
  split; [discriminate|]. split; [lia|]. split; [exact H|].
  destruct (offline_run offline_env [hostA; hostB] "reports/report.csv" 5
              initial_state) as (H1 & H2 & _); [discriminate|lia|exact H|].
  split; [exact H1|exact H2].
Defined.

(** ** The report file and its name *)

Lemma basename_after_slash (dir file : string) :
  has_slash file = false ->
  basename (dir ++ String "/" file)%string = file.
Proof.
  intros Hf. induction dir as [|c dir IH]; simpl.
  - rewrite Hf. reflexivity.
  - rewrite has_slash_append. simpl. rewrite orb_true_r. exact IH.
Qed.

Lemma digit_not_slash (n : nat) : Ascii.eqb (digit n) "/" = false.
Proof.
  unfold digit. pose proof (Nat.mod_upper_bound n 10 ltac:(lia)) as H.
  destruct (n mod 10) as [|d]; [reflexivity|].
  do 9 (destruct d as [|d]; [reflexivity|]). lia.
Qed.

Lemma pad2_no_slash (n : nat) : has_slash (pad2 n) = false.
Proof.
  unfold pad2. cbn [has_slash]. rewrite !digit_not_slash. reflexivity.
Qed.

Lemma pad4_no_slash (n : nat) : has_slash (pad4 n) = false.
Proof.
  unfold pad4. cbn [has_slash]. rewrite !digit_not_slash. apply pad2_no_slash.
Qed.

Lemma strftime_compact_no_slash (t : Instant) :
  has_slash (strftime_compact t) = false.
Proof.
  unfold strftime_compact.
  rewrite !has_slash_append, pad4_no_slash, !pad2_no_slash. reflexivity.
Qed.

Lemma basename_report_path (now : Instant) :
  basename (report_path now) =
  ("BHC LINK REPORT_" ++ strftime_compact now ++ ".csv")%string.
Proof.
  unfold report_path.
  change ("C:/Users/kapingura/Documents/BHC/reports/BHC LINK REPORT_" ++
          strftime_compact now ++ ".csv")%string
    with ("C:/Users/kapingura/Documents/BHC/reports" ++
          String "/" ("BHC LINK REPORT_" ++ strftime_compact now ++ ".csv"))%string.
  apply basename_after_slash.
  rewrite !has_slash_append, strftime_compact_no_slash. reflexivity.
Qed.

(** X11: the one message that [generate_report] hands to the SMTP session
    comes from [EMAIL_ADDRESS] and carries the report just written, header
    and one row per host, as an attachment named
    "BHC LINK REPORT_<date>_<time>.csv" after the clock reading taken on
    entry, without the directories of the path. *)
Theorem attachment_of_report env cfg s :
  exists m,
    outbox (snd (generate_report env cfg s)) = outbox s ++ accepted env m /\
    From m = EMAIL_ADDRESS cfg /\
    attachment m =
    Some (("BHC LINK REPORT_" ++ strftime_compact (env_clock env (ticks s)) ++
           ".csv")%string,
          header :: rows_from env 5 0 (S (ticks s)) (ip_addresses cfg)).
Proof.
  destruct (generate_report_run env cfg s) as (_ & _ & H). cbv zeta in H.
  eexists. split; [exact H|].
  fold (report env (ip_addresses cfg) (report_path (env_clock env (ticks s))) 5
               (tick s)).
  rewrite report_run by apply dirname_report_path.
  rewrite basename_report_path.
  destruct (all_silent env 5 0 (ip_addresses cfg)); split; reflexivity.
Qed.

(** X13: [generate_report] writes the report whether or not the e-mail
    can be sent: on return the file named after the clock reading taken on
    entry holds the header and the rows of this run; of the other regular
    files, all but the log file have the content they had. *)
Theorem generate_report_writes_the_file env cfg s :
  let path := report_path (env_clock env (ticks s)) in
  fs (snd (generate_report env cfg s)) path =
  Some (report env (ip_addresses cfg) path 5 (tick s)) /\
  (forall p, p <> path -> p <> LOG_FILE ->
     fs (snd (generate_report env cfg s)) p = fs s p).
Proof.
  intros path.
  destruct (generate_report_run env cfg s) as (_ & H & _). cbv zeta in H.
  fold path in H. rewrite H. split.
  - destruct (ping_ips_run env (ip_addresses cfg) path 5 (tick s)
                (dirname_report_path _)) as (_ & H2 & _).
    cbv zeta in H2. rewrite H2, report_run by apply dirname_report_path.
    reflexivity.
  - intros p Hp _. rewrite ping_ips_other_files by assumption. reflexivity.
Qed.

(** X14: with no network at all (the first call of [ping] raises for every
    host) [generate_report] completes and the message it hands to the SMTP
    session is the error message, for the error recipient. *)
Theorem offline_report_is_an_error_message env cfg s :
  (forall i entry, nth_error (ip_addresses cfg) i = Some entry ->
     exists e, env_ping env i 0 (ip entry) = Raises e) ->
  fst (generate_report env cfg s) = Val tt /\
  exists att,
    outbox (snd (generate_report env cfg s)) =
    outbox s ++
    accepted env
      (mkEmail "Ping Report - Error" (EMAIL_ADDRESS cfg) (ERROR_RECIPIENT_EMAIL cfg)
               "All IPs are unreachable or there is no internet access." att).
Proof.
  intros H.
  assert (Hs : all_silent env 5 0 (ip_addresses cfg) = true).
  { apply all_silent_spec. intros j entry Hj. destruct (H j entry Hj) as [e He].
    simpl Nat.add. rewrite (attempts_first_raises _ _ _ _ _ He). reflexivity. }
  destruct (generate_report_run env cfg s) as (H1 & _ & H3). cbv zeta in H1, H3.
  split; [exact H1|]. rewrite Hs in H3. eexists. exact H3.
Qed.

Lemma offline_report_is_an_error_message_witness :
  (forall i entry, nth_error (ip_addresses (sample_cfg [hostA; hostB])) i = Some entry ->
     exists e, env_ping offline_env i 0 (ip entry) = Raises e) /\
  fst (generate_report offline_env (sample_cfg [hostA; hostB]) initial_state) = Val tt.
Proof.
  assert (H : forall i entry,
                nth_error (ip_addresses (sample_cfg [hostA; hostB])) i = Some entry ->
                exists e, env_ping offline_env i 0 (ip entry) = Raises e).
  { intros i entry _. eexists. reflexivity. }
  split; [exact H|].
  apply (offline_report_is_an_error_message offline_env
           (sample_cfg [hostA; hostB]) initial_state).
  exact H.
Defined.

Example offline_outbox :
  map (fun m => (Subject m, To m))
      (outbox (snd (generate_report offline_env (sample_cfg [hostA; hostB])
                                    initial_state))) =
  [("Ping Report - Error", "alerts@example.org")]%string.
Proof. vm_compute. reflexivity. Qed.

(** ** A bare file name *)

(** X15: line 44 creates the directory of [output_file] before anything
    else, and the empty path names none: for a bare file name, without a
    "/", [ping_ips] raises at once; no call of [ping] is made, no file is
    written, nothing is logged and the state is as it was. *)
Theorem bare_file_name_raises env ips out n s :
  has_slash out = false ->
  exists e, ping_ips env ips out n s = (Exn e, s).
Proof.
  intros H. eexists. apply ping_ips_bare, dirname_no_slash. exact H.
Qed.

Lemma bare_file_name_raises_witness :
  has_slash "report.csv" = false /\
  exists e,
    ping_ips scenario1_env [hostA; hostB] "report.csv" 5 initial_state =
    (Exn e, initial_state).
Proof.
  split; [reflexivity|].
  apply (bare_file_name_raises scenario1_env [hostA; hostB] "report.csv" 5
           initial_state).
  reflexivity.
Defined.
